(** * importer.py: shallow embedding and verification

    The module reads a spreadsheet into a table, normalises the column
    labels into unique non-empty names, recreates the SQLite table
    [produtos_bling] and bulk-inserts the rows.

    Python strings are modelled as [string]; a character is a code point
    below 256.  Python sets of strings are [gset string], integers are
    [Z] (values) or [nat] (loop counters that only count upwards). *)

From Stdlib Require Import ZArith Ascii String.
From stdpp Require Import base gmap sets list strings pretty.

Local Open Scope Z_scope.
Local Open Scope nat_scope.

(** ** Python values

    The objects that can occur as a column label or as a cell of the
    table produced by pandas. *)
Inductive PyVal : Type :=
| PyNone                    (* None *)
| PyBool (b : bool)         (* True / False *)
| PyInt (z : Z)             (* int *)
| PyNaN                     (* float('nan') *)
| PyNaT                     (* pandas.NaT *)
| PyFloat (repr : string)   (* a float that is not NaN, carried by its repr *)
| PyStr (s : string)        (* str *)
| PyObj (repr : string)     (* any other object (e.g. a pandas Timestamp),
                               carried by the text str() gives for it *)
| PyNA                      (* pandas.NA *)
| PyBuffer (repr : string). (* an object exporting the buffer protocol (bytes,
                               a numpy scalar), carried by its str() text *)

(** [str(valor)] *)
Definition py_str (valor : PyVal) : string :=
  match valor with
  | PyNone => "None"
  | PyBool true => "True"
  | PyBool false => "False"
  | PyInt z => pretty z
  | PyNaN => "nan"
  | PyNaT => "NaT"
  | PyFloat repr => repr
  | PyStr s => s
  | PyObj repr => repr
  | PyNA => "<NA>"
  | PyBuffer repr => repr
  end.

(** [pd.isna(valor)] on a scalar *)
Definition pd_isna (valor : PyVal) : bool :=
  match valor with
  | PyNone | PyNaN | PyNaT | PyNA => true
  | _ => false
  end.

(** ** String primitives *)

(** [str.isspace] on one character, for code points below 256:
    U+0009..U+000D, U+001C..U+0020, U+0085 and U+00A0. *)
Definition is_space (c : ascii) : bool :=
  let n := N_of_ascii c in
  (((9 <=? n) && (n <=? 13)) || ((28 <=? n) && (n <=? 32))
   || (n =? 133) || (n =? 160))%N.

Fixpoint lstrip (s : string) : string :=
  match s with
  | EmptyString => EmptyString
  | String c s' => if is_space c then lstrip s' else s
  end.

Fixpoint rstrip (s : string) : string :=
  match s with
  | EmptyString => EmptyString
  | String c s' =>
      match rstrip s' with
      | EmptyString => if is_space c then EmptyString else String c EmptyString
      | r => String c r
      end
  end.

(** [s.strip()] *)
Definition strip (s : string) : string := rstrip (lstrip s).

(** ** preparar_nomes_colunas *)

(** Line 58: the original name, an underscore and the counter in decimal. *)
Definition nome_sufixado (nome_original : string) (contador : nat) : string :=
  nome_original +:+ "_" +:+ pretty contador.

(** The [while nome in colunas_existentes] loop.  [fuel] bounds the number
    of times the body runs; [None] means the bound was reached with the
    condition still true. *)
Fixpoint laco_while (fuel : nat) (nome_original : string) (contador : nat)
    (nome : string) (colunas_existentes : gset string) : option string :=
  if decide (nome ∈ colunas_existentes) then
    match fuel with
    | O => None
    | S fuel' =>
        let contador := S contador in
        let nome := nome_sufixado nome_original contador in
        laco_while fuel' nome_original contador nome colunas_existentes
    end
  else Some nome.

(** The candidates the loop tries are pairwise different. *)
Lemma nome_sufixado_inj nome_original : Inj (=) (=) (nome_sufixado nome_original).
Proof.
  intros j k H. unfold nome_sufixado in H.
  apply (inj (String.app nome_original)) in H.
  apply (inj (String.app "_")) in H.
  by apply (inj pretty) in H.
Qed.

Lemma length_app_string (s t : string) :
  String.length (s +:+ t) = String.length s + String.length t.
Proof. induction s as [|c s IH]; simpl; [done|]. by rewrite IH. Qed.

Lemma nome_sufixado_neq nome_original k : nome_sufixado nome_original k ≠ nome_original.
Proof.
  intros H. apply (f_equal String.length) in H.
  unfold nome_sufixado in H. rewrite length_app_string in H.
  simpl in H. lia.
Qed.

(** The loop stops within [size colunas_existentes] iterations: every
    iteration finds one more member of the set, and no member twice. *)
Lemma laco_while_restante nome_original (colunas_existentes restantes : gset string) :
  ∀ fuel contador nome,
    size restantes ≤ fuel →
    (nome ∈ colunas_existentes → nome ∈ restantes) →
    (∀ j, contador < j → nome_sufixado nome_original j ≠ nome) →
    (∀ j, contador < j → nome_sufixado nome_original j ∈ colunas_existentes →
          nome_sufixado nome_original j ∈ restantes) →
    is_Some (laco_while fuel nome_original contador nome colunas_existentes).
Proof.
  intros fuel. revert restantes.
  induction fuel as [|fuel IH]; intros restantes contador nome Hsz Hin Hne Hrest; simpl.
  - case_decide as Hx; [|by eexists].
    apply Hin in Hx. apply Nat.le_0_r, size_empty_inv in Hsz.
    unfold_leibniz. set_solver.
  - case_decide as Hx; [|by eexists].
    apply (IH (restantes ∖ {[nome]})).
    + apply Hin in Hx.
      rewrite size_difference by set_solver.
      rewrite size_singleton.
      assert (size restantes ≠ 0); [|lia].
      intros H0. apply size_empty_inv in H0. set_solver.
    + intros Hy. apply elem_of_difference. split; [apply Hrest; [lia|done]|].
      rewrite elem_of_singleton. apply Hne. lia.
    + intros j Hj Heq. apply nome_sufixado_inj in Heq. lia.
    + intros j Hj Hy. apply elem_of_difference. split; [apply Hrest; [lia|done]|].
      rewrite elem_of_singleton. apply Hne. lia.
Qed.

Lemma laco_while_termina nome_original (colunas_existentes : gset string) :
  is_Some (laco_while (size colunas_existentes) nome_original 1 nome_original
             colunas_existentes).
Proof.
  apply (laco_while_restante nome_original colunas_existentes colunas_existentes);
    [done|done| |done].
  intros j _. apply nome_sufixado_neq.
Qed.

(** The [while] loop of lines 56-58 run to its end, started as lines 54-55
    set it up ([nome_original = nome], [contador = 1]). *)
Definition resolver_colisao (nome : string) (colunas_existentes : gset string) : string :=
  is_Some_proj (laco_while_termina nome colunas_existentes).

(** Lines 49-52: the name of a column before collisions are resolved. *)
Definition nome_base (indice : nat) (coluna : PyVal) : string :=
  let nome := strip (py_str coluna) in
  if decide (nome = EmptyString) then "coluna_" +:+ pretty indice else nome.

(** One iteration of the [for] loop (lines 49-61) on the pair
    [(nomes_ajustados, colunas_existentes)]. *)
Definition passo (indice : nat) (coluna : PyVal)
    (estado : list string * gset string) : list string * gset string :=
  let '(nomes_ajustados, colunas_existentes) := estado in
  let nome := nome_base indice coluna in
  let nome := resolver_colisao nome colunas_existentes in
  (nomes_ajustados ++ [nome], {[nome]} ∪ colunas_existentes).

(** [for indice, coluna in enumerate(colunas, start=indice)] *)
Fixpoint laco_for (indice : nat) (colunas : list PyVal)
    (estado : list string * gset string) : list string * gset string :=
  match colunas with
  | [] => estado
  | coluna :: resto => laco_for (S indice) resto (passo indice coluna estado)
  end.

Definition preparar_nomes_colunas (colunas : list PyVal) : list string :=
  fst (laco_for 1 colunas ([], ∅)).

(** ** Exceptions and results *)

Inductive Excecao : Type :=
| ValueError (msg : string)      (* raised by read_planilha itself *)
| ErroPandas (msg : string)      (* whatever a pandas parser raises *)
| ErroSqlite (msg : string).     (* sqlite3.Error and its subclasses *)

Inductive Resultado (A : Type) : Type :=
| Ok (a : A)
| Erro (e : Excecao).
Arguments Ok {A} a.
Arguments Erro {A} e.

Definition falhou {A} (r : Resultado A) : bool :=
  match r with Ok _ => false | Erro _ => true end.

(** ** pathlib.Path

    A path object, by the final component pathlib parsed out of it. *)
Record Path : Type := { parent : string; name : string }.

(** The text after the last occurrence of [sep] in [s], if [sep] occurs. *)
Fixpoint apos_ultimo (sep : ascii) (s : string) : option string :=
  match s with
  | EmptyString => None
  | String c s' =>
      match apos_ultimo sep s' with
      | Some r => Some r
      | None => if decide (c = sep) then Some s' else None
      end
  end.

(** [caminho.suffix]: the last dot of the name starts the suffix, unless
    that dot is the first or the last character of the name. *)
Definition suffix (caminho : Path) : string :=
  match apos_ultimo "." (name caminho) with
  | Some ext =>
      if (0 <? String.length ext)
         && (S (String.length ext) <? String.length (name caminho))
      then String "." ext else EmptyString
  | None => EmptyString
  end.

(** [str.lower] on code points below 256: A-Z and U+00C0..U+00DE
    (without U+00D7) move up by 32. *)
Definition lower_char (c : ascii) : ascii :=
  let n := N_of_ascii c in
  if (((65 <=? n) && (n <=? 90))
      || ((192 <=? n) && (n <=? 222) && negb (n =? 215)))%N
  then ascii_of_N (n + 32) else c.

Fixpoint lower (s : string) : string :=
  match s with
  | EmptyString => EmptyString
  | String c s' => String (lower_char c) (lower s')
  end.

(** ** pandas.DataFrame

    The column labels and the rows [to_numpy()] gives. *)
Record DataFrame : Type := { columns : list PyVal; linhas : list (list PyVal) }.

(** [dataframe.empty]: some axis has length 0. *)
Definition df_empty (dataframe : DataFrame) : bool :=
  match columns dataframe, linhas dataframe with
  | [], _ | _, [] => true
  | _, _ => false
  end.

(** [dataframe.columns = colunas] *)
Definition set_columns (dataframe : DataFrame) (colunas : list string) : DataFrame :=
  {| columns := PyStr <$> colunas; linhas := linhas dataframe |}.

(** ** read_planilha *)

Definition msg_formato : string :=
  "Formato de arquivo n" +:+ String "227"
    "o suportado. Utilize arquivos .csv, .xls ou .xlsx.".

Definition msg_vazia : string :=
  "A planilha est" +:+ String "225" " vazia e n" +:+ String "227"
    "o possui dados para importar.".

(** The two error categories of the reader. *)
Definition UnsupportedFormat : Excecao := ValueError msg_formato.
Definition EmptyInput : Excecao := ValueError msg_vazia.

Section Leitor.
(** The parsers of pandas, with the file system they read, are black
    boxes: a path gives a table or an exception. *)
Variable pd_read_csv : Path → Resultado DataFrame.
Variable pd_read_excel : Path → Resultado DataFrame.

(** Lines 23-35: the dispatch on the extension. *)
Definition carregar (caminho : Path) : Resultado DataFrame :=
  let sufixo := lower (suffix caminho) in
  if decide (sufixo = ".csv") then pd_read_csv caminho
  else if decide (sufixo ∈ [".xls"; ".xlsx"]) then pd_read_excel caminho
  else Erro (ValueError msg_formato).

Definition read_planilha (caminho : Path) : Resultado DataFrame :=
  match carregar caminho with
  | Erro e => Erro e
  | Ok dataframe =>
      if df_empty dataframe then Erro (ValueError msg_vazia) else Ok dataframe
  end.
End Leitor.

(** ** SQL statements

    The three statements the module issues, and the text it sends for
    each of them. *)
Inductive Sql : Type :=
| DropTableIfExists (tabela : string)
| CreateTable (tabela : string) (colunas : list string)   (* every column TEXT *)
| InsertInto (tabela : string) (colunas : list string).   (* VALUES (?, ..., ?) *)

Definition aspas : ascii := ascii_of_nat 34.

(** [identificador.replace] of a double quote by two double quotes *)
Fixpoint escapar_identificador (identificador : string) : string :=
  match identificador with
  | EmptyString => EmptyString
  | String c s =>
      if decide (c = aspas) then String aspas (String aspas (escapar_identificador s))
      else String c (escapar_identificador s)
  end.

(** [sep.join(partes)] *)
Fixpoint join (sep : string) (partes : list string) : string :=
  match partes with
  | [] => EmptyString
  | [p] => p
  | p :: resto => p +:+ sep +:+ join sep resto
  end.

(** The escaped name between double quotes, as the f-strings of lines
    80 and 89 write it. *)
Definition entre_aspas (nome : string) : string :=
  String aspas (escapar_identificador nome) +:+ String aspas EmptyString.

(** Line 87: one question mark per column, joined by comma and space. *)
Definition placeholders (colunas : list string) : string :=
  join ", " (replicate (length colunas) "?").

Definition sql_texto (q : Sql) : string :=
  match q with
  | DropTableIfExists tabela => "DROP TABLE IF EXISTS " +:+ tabela
  | CreateTable tabela colunas =>
      let colunas_sql := join ", " ((λ nome, entre_aspas nome +:+ " TEXT") <$> colunas) in
      "CREATE TABLE " +:+ tabela +:+ " (" +:+ colunas_sql +:+ ")"
  | InsertInto tabela colunas =>
      let colunas_sql := join ", " (entre_aspas <$> colunas) in
      "INSERT INTO " +:+ tabela +:+ " (" +:+ colunas_sql +:+ ") VALUES ("
        +:+ placeholders colunas +:+ ")"
  end.

(** sqlite3 opens a transaction by itself before INSERT, UPDATE, DELETE and
    REPLACE, and before no other statement. *)
Definition is_dml (q : Sql) : bool :=
  match q with
  | InsertInto _ _ => true
  | _ => false
  end.

(** ** The database

    A database file holds tables; a table has its column names and its
    rows.  A row is recorded as the tuple of values that was bound for
    it; what SQLite makes of a bound value under the TEXT affinity of the
    column is not part of the model.  Tables are keyed by their name as
    SQLite compares names, that is
    folded to lower case over A-Z. *)
Record Tabela : Type := { tab_colunas : list string; tab_linhas : list (list PyVal) }.

Abbreviation Banco := (gmap string Tabela).

Definition sqlite_lower_char (c : ascii) : ascii :=
  let n := N_of_ascii c in
  if ((65 <=? n) && (n <=? 90))%N then ascii_of_N (n + 32) else c.

Fixpoint sqlite_lower (s : string) : string :=
  match s with
  | EmptyString => EmptyString
  | String c s' => String (sqlite_lower_char c) (sqlite_lower s')
  end.

Section Motor.
(** What SQLite and sqlite3 accept is not written in the module: it is
    taken as given.  [recusa_colunas colunas] is the error the CREATE
    TABLE of line 82 ends with for these column names, if it is refused;
    [recusa_valores parametros] is the error sqlite3 raises when it
    cannot bind this tuple of values, if it cannot. *)
Variable recusa_colunas : list string → option Excecao.
Variable recusa_valores : list PyVal → option Excecao.

(** Why sqlite3 refuses a tuple of parameters for a statement with one
    question mark per column: wrong arity, or a value it cannot bind. *)
Definition recusa_linha (colunas : list string) (parametros : list PyVal) : option Excecao :=
  if decide (length parametros = length colunas) then recusa_valores parametros
  else Some (ErroSqlite "Incorrect number of bindings supplied").

(** What one statement does to the tables, or the error it ends with.
    INSERT is covered in the form the module uses, naming every column
    of the table in the order of the table. *)
Definition executar_sql (q : Sql) (parametros : list PyVal) (b : Banco) : Resultado Banco :=
  match q with
  | DropTableIfExists tabela =>
      if decide (parametros = []) then Ok (delete (sqlite_lower tabela) b)
      else Erro (ErroSqlite "Incorrect number of bindings supplied")
  | CreateTable tabela colunas =>
      if decide (parametros = []) then
        if decide (is_Some (b !! sqlite_lower tabela))
        then Erro (ErroSqlite "table already exists")
        else match recusa_colunas colunas with
             | Some e => Erro e
             | None => Ok (<[sqlite_lower tabela :=
                              {| tab_colunas := colunas; tab_linhas := [] |}]> b)
             end
      else Erro (ErroSqlite "Incorrect number of bindings supplied")
  | InsertInto tabela colunas =>
      match b !! sqlite_lower tabela with
      | None => Erro (ErroSqlite "no such table")
      | Some tab =>
          if decide (colunas = tab_colunas tab) then
            match recusa_linha colunas parametros with
            | Some e => Erro e
            | None => Ok (<[sqlite_lower tabela :=
                             {| tab_colunas := tab_colunas tab;
                                tab_linhas := tab_linhas tab ++ [parametros] |}]> b)
            end
          else Erro (ErroSqlite "table has no column with that name")
      end
  end.

(** ** Connections

    The sqlite3 module as the code uses it, with the transaction control
    it has by default.  [banco] is what the database file durably holds.
    A connection is in autocommit mode ([transacao = None]: a statement
    changes the file at once) or inside a transaction ([transacao = Some
    b]: [b] is what the connection sees, the file keeps its content until
    commit).  The module never issues BEGIN itself; sqlite3 does, before
    a DML statement only. *)
Record Conexao : Type := { transacao : option Banco; aberta : bool }.

Record Mundo : Type := { banco : Banco; conexao : option Conexao }.

(** A process that has not connected yet. *)
Definition inicio (b : Banco) : Mundo := {| banco := b; conexao := None |}.

(** Computations that change the world and may raise. *)
Definition Acao (A : Type) : Type := Mundo → Resultado A * Mundo.

Definition retornar {A} (a : A) : Acao A := λ m, (Ok a, m).

Definition ligar {A B} (c : Acao A) (k : A → Acao B) : Acao B :=
  λ m, match c m with
       | (Ok a, m') => k a m'
       | (Erro e, m') => (Erro e, m')
       end.

Notation "c1 ;; c2" := (ligar c1 (λ _, c2))
  (at level 100, c2 at level 200, right associativity).

Definition msg_fechada : string := "Cannot operate on a closed database.".

(** The open connection the cursor belongs to. *)
Definition com_aberta {A} (k : Conexao → Acao A) : Acao A :=
  λ m, match conexao m with
       | Some c => if aberta c then k c m else (Erro (ErroSqlite msg_fechada), m)
       | None => (Erro (ErroSqlite msg_fechada), m)
       end.

(** The implicit BEGIN before a DML statement in autocommit mode. *)
Definition comecar (q : Sql) : Acao unit :=
  com_aberta (λ c m,
    match transacao c with
    | None =>
        if is_dml q
        then (Ok (), {| banco := banco m;
                        conexao := Some {| transacao := Some (banco m); aberta := true |} |})
        else (Ok (), m)
    | Some _ => (Ok (), m)
    end).

(** One statement run with one tuple of parameters.  A statement that
    fails changes nothing. *)
Definition aplicar (q : Sql) (parametros : list PyVal) : Acao unit :=
  com_aberta (λ c m,
    match transacao c with
    | Some b =>
        match executar_sql q parametros b with
        | Ok b' => (Ok (), {| banco := banco m;
                              conexao := Some {| transacao := Some b'; aberta := true |} |})
        | Erro e => (Erro e, m)
        end
    | None =>
        match executar_sql q parametros (banco m) with
        | Ok b' => (Ok (), {| banco := b'; conexao := conexao m |})
        | Erro e => (Erro e, m)
        end
    end).

(** [cursor.execute(sql)] *)
Definition cursor_execute (q : Sql) : Acao unit :=
  comecar q ;; aplicar q [].

Fixpoint aplicar_todas (q : Sql) (valores : list (list PyVal)) : Acao unit :=
  match valores with
  | [] => retornar ()
  | parametros :: resto => aplicar q parametros ;; aplicar_todas q resto
  end.

(** [cursor.executemany(sql, valores)] *)
Definition cursor_executemany (q : Sql) (valores : list (list PyVal)) : Acao unit :=
  comecar q ;; aplicar_todas q valores.

(** [conexao.commit()] *)
Definition conexao_commit : Acao unit :=
  com_aberta (λ c m,
    match transacao c with
    | Some b => (Ok (), {| banco := b; conexao := Some {| transacao := None; aberta := true |} |})
    | None => (Ok (), m)
    end).

(** [conexao.rollback()] *)
Definition conexao_rollback : Acao unit :=
  com_aberta (λ c m,
    (Ok (), {| banco := banco m; conexao := Some {| transacao := None; aberta := true |} |})).

(** [sqlite3.connect(banco_dados)], the file taken to be accessible. *)
Definition sqlite3_connect : Acao unit :=
  λ m, (Ok (), {| banco := banco m;
                  conexao := Some {| transacao := None; aberta := true |} |}).

(** [with sqlite3.connect(banco_dados) as conexao: corpo].  Leaving the
    block commits when the body ended normally and rolls back when it
    raised; the exception goes on.  The connection is not closed. *)
Definition with_connect (corpo : Acao unit) : Acao unit :=
  λ m, let '(_, m0) := sqlite3_connect m in
       match corpo m0 with
       | (Ok _, m1) => conexao_commit m1
       | (Erro e, m1) => (Erro e, snd (conexao_rollback m1))
       end.

(** ** The writer *)

Definition tabela_destino : string := "produtos_bling".

Definition criar_tabela_produtos (colunas : list string) : Acao unit :=
  cursor_execute (DropTableIfExists tabela_destino) ;;
  cursor_execute (CreateTable tabela_destino colunas).

(** Lines 93-96: the parameter rows. *)
Definition valores_de (dados : DataFrame) : list (list PyVal) :=
  (λ linha : list PyVal, (λ valor, if pd_isna valor then PyNone else valor) <$> linha)
    <$> linhas dados.

(** Lines 87-91: the statement. *)
Definition inserir_sql (colunas : list string) : Sql := InsertInto tabela_destino colunas.

Definition inserir_registros (colunas : list string) (dados : DataFrame) : Acao unit :=
  cursor_executemany (inserir_sql colunas) (valores_de dados).

(** ** The orchestrator *)

Section Importador.
Variable pd_read_csv : Path → Resultado DataFrame.
Variable pd_read_excel : Path → Resultado DataFrame.

Definition importar_planilha (caminho_planilha : Path) : Acao unit :=
  λ m, match read_planilha pd_read_csv pd_read_excel caminho_planilha with
       | Erro e => (Erro e, m)
       | Ok dataframe =>
           let colunas := preparar_nomes_colunas (columns dataframe) in
           let dataframe := set_columns dataframe colunas in
           with_connect
             (criar_tabela_produtos colunas ;;
              inserir_registros colunas dataframe ;;
              conexao_commit) m
       end.
End Importador.

(** ** main

    The command-line entry point.  What argparse makes of the argument
    list is a parameter: either the parsed arguments, or an exit of its
    own (usage error, help) with what it printed.  The database file of
    the world is the one the [--banco] argument names. *)
Record Namespace : Type := { caminho_planilha : Path; banco_dados : Path }.

Inductive Analise : Type :=
| Analisado (argumentos : Namespace)
| Encerrado (codigo : Z) (saida erro : list string).

(** The process: the store, and the lines printed so far on each stream. *)
Record Processo : Type :=
  { mundo : Mundo; stdout : list string; stderr : list string }.

Inductive Termino : Type :=
| Retorno
| SystemExit (codigo : Z).

(** [str(erro)] for an exception built with one message. *)
Definition excecao_str (erro : Excecao) : string :=
  match erro with
  | ValueError msg | ErroPandas msg | ErroSqlite msg => msg
  end.

Definition msg_erro (erro : Excecao) : string :=
  "Erro ao importar planilha: " +:+ excecao_str erro.

Definition msg_sucesso (destino : string) : string :=
  "Importa" +:+ String "231" (String "227" "o conclu") +:+ String "237"
    "da com sucesso! Dados gravados em '" +:+ destino +:+ "'.".

Section Principal.
Variable pd_read_csv : Path → Resultado DataFrame.
Variable pd_read_excel : Path → Resultado DataFrame.
Variable parse_args : option (list string) → Analise.
(** [caminho.resolve()], as text. *)
Variable resolve : Path → string.

Definition main (argv : option (list string)) (p : Processo) : Termino * Processo :=
  match parse_args argv with
  | Encerrado codigo saida erro =>
      (SystemExit codigo,
       {| mundo := mundo p; stdout := stdout p ++ saida; stderr := stderr p ++ erro |})
  | Analisado argumentos =>
      match importar_planilha pd_read_csv pd_read_excel
              (caminho_planilha argumentos) (mundo p) with
      | (Erro erro, m) =>
          (SystemExit 1,
           {| mundo := m; stdout := stdout p; stderr := stderr p ++ [msg_erro erro] |})
      | (Ok _, m) =>
          (Retorno,
           {| mundo := m;
              stdout := stdout p ++ [msg_sucesso (resolve (banco_dados argumentos))];
              stderr := stderr p |})
      end
  end.
End Principal.

(** * Vocabulary of the statements *)

(** A text without any whitespace character. *)
Fixpoint sem_espaco (s : string) : Prop :=
  match s with
  | EmptyString => True
  | String c s' => is_space c = false ∧ sem_espaco s'
  end.

(** The label of a column as line 49 reads it. *)
Definition rotulo (coluna : PyVal) : string := strip (py_str coluna).

(** The name chosen for a column whose name before collisions is [base],
    when the names in [anteriores] are taken. *)
Definition escolhido (base : string) (anteriores : list string) (nome : string) : Prop :=
  ((base ∉ anteriores) ∧ nome = base) ∨
  (base ∈ anteriores ∧
   ∃ k, 2 ≤ k ∧ nome = nome_sufixado base k ∧ (nome ∉ anteriores) ∧
        ∀ j, 2 ≤ j < k → nome_sufixado base j ∈ anteriores).


(** An open connection outside any transaction. *)
Definition livre : Conexao := {| transacao := None; aberta := true |}.

(** The error [executemany] stops at, if any row is refused. *)
Fixpoint primeira_recusa (colunas : list string) (valores : list (list PyVal))
    : option Excecao :=
  match valores with
  | [] => None
  | parametros :: resto =>
      match recusa_linha colunas parametros with
      | Some e => Some e
      | None => primeira_recusa colunas resto
      end
  end.

(** The tables as the process sees them: those of its transaction when
    one is open, those of the file otherwise. *)
Definition visao (m : Mundo) : Banco :=
  match conexao m with
  | Some {| transacao := Some b |} => b
  | _ => banco m
  end.

(** [sub] occurs in [s]. *)
Definition contem (sub s : string) : Prop := ∃ antes depois, s = antes +:+ sub +:+ depois.

(** A text that does not start with whitespace. *)
Definition inicio_limpo (s : string) : Prop :=
  match s with
  | EmptyString => True
  | String c _ => is_space c = false
  end.

(** How SQL reads a double-quoted identifier once the opening quote is
    passed: two quotes in a row stand for one quote character, a single
    quote ends the identifier.  Gives the identifier and the text that
    follows the closing quote; [None] when the identifier never ends. *)
Fixpoint ler_corpo (s : string) : option (string * string) :=
  match s with
  | EmptyString => None
  | String c s' =>
      if decide (c = aspas) then
        match s' with
        | EmptyString => Some (EmptyString, EmptyString)
        | String c' s'' =>
            if decide (c' = aspas)
            then prod_map (String aspas) id <$> ler_corpo s''
            else Some (EmptyString, s')
        end
      else prod_map (String c) id <$> ler_corpo s'
  end.

Definition ler_identificador (s : string) : option (string * string) :=
  match s with
  | EmptyString => None
  | String c s' => if decide (c = aspas) then ler_corpo s' else None
  end.

(** A text that does not start with a double quote. *)
Definition inicio_sem_aspas (s : string) : Prop :=
  match s with
  | EmptyString => True
  | String c _ => c ≠ aspas
  end.

(** The number of double quotes in a text. *)
Fixpoint contar_aspas (s : string) : nat :=
  match s with
  | EmptyString => 0
  | String c s' => (if decide (c = aspas) then 1 else 0) + contar_aspas s'
  end.

(** ** Concrete files and stores *)

(** A table of the kind the examples below import. *)
Definition planilha_exemplo : DataFrame :=
  {| columns := [PyStr "Nome"; PyStr " Estoque "];
     linhas := [[PyStr "Caneta"; PyInt 3]; [PyNaN; PyStr "NaN"]] |}.

(** A connection in autocommit mode on a file with the empty table. *)
Definition mundo_exemplo : Mundo :=
  {| banco := {[ "produtos_bling" :=
                   {| tab_colunas := ["Nome"; "Estoque"]; tab_linhas := [] |} ]};
     conexao := Some livre |}.

(** A parser that finds the table [dataframe] in every file. *)
Definition leitor (dataframe : DataFrame) : Path → Resultado DataFrame :=
  λ _, Ok dataframe.

Definition caminho_csv : Path := {| parent := "dados"; name := "produtos.csv" |}.
Definition caminho_xlsx : Path := {| parent := "dados"; name := "produtos.v2.XLSX" |}.
Definition caminho_txt : Path := {| parent := "dados"; name := "produtos.txt" |}.


(** A date cell, which pandas reads as a Timestamp object. *)
Definition planilha_data : DataFrame :=
  {| columns := [PyStr "Nome"; PyStr "Data"];
     linhas := [[PyStr "Caneta"; PyObj "2024-01-05 00:00:00"]] |}.

(** A header and no data row. *)
Definition planilha_so_cabecalho : DataFrame :=
  {| columns := [PyStr "Nome"; PyStr "Estoque"]; linhas := [] |}.

(** A store that already holds a destination table. *)
Definition tabela_antiga : Tabela :=
  {| tab_colunas := ["id"]; tab_linhas := [[PyInt 7]] |}.

Definition banco_antigo : Banco := {[ "produtos_bling" := tabela_antiga ]}.

(** A parser that fails on every file. *)
Definition leitor_falho : Path → Resultado DataFrame :=
  λ _, Erro (ErroPandas "No columns to parse from file").

(** Command lines that name the text file, and the spreadsheet. *)
Definition banco_padrao : Path := {| parent := "."; name := "produtos_bling.db" |}.

Definition analise_txt : option (list string) → Analise :=
  λ _, Analisado {| caminho_planilha := caminho_txt; banco_dados := banco_padrao |}.

Definition analise_csv : option (list string) → Analise :=
  λ _, Analisado {| caminho_planilha := caminho_csv; banco_dados := banco_padrao |}.

Definition resolve_exemplo : Path → string := λ p, "/srv/" +:+ name p.

Definition processo_exemplo : Processo :=
  {| mundo := inicio banco_antigo; stdout := []; stderr := [] |}.

(** * Verification *)

(** ** Whitespace *)

Lemma lstrip_sem_espaco s : sem_espaco s → lstrip s = s.
Proof. destruct s as [|c s]; simpl; [done|]. by intros [-> _]. Qed.

Lemma rstrip_sem_espaco s : sem_espaco s → rstrip s = s.
Proof.
  induction s as [|c s IH]; simpl; [done|].
  intros [Hc Hs]. rewrite (IH Hs), Hc. by destruct s.
Qed.

Lemma strip_sem_espaco s : sem_espaco s → strip s = s.
Proof.
  intros Hs. unfold strip. rewrite (lstrip_sem_espaco _ Hs).
  by apply rstrip_sem_espaco.
Qed.

Lemma pretty_N_char_sem_espaco d : is_space (pretty_N_char d) = false.
Proof. unfold pretty_N_char. by repeat case_match. Qed.

Lemma pretty_N_go_sem_espaco x s : sem_espaco s → sem_espaco (pretty_N_go x s).
Proof.
  revert s. induction (N.lt_wf_0 x) as [x _ IH]; intros s Hs.
  destruct (decide (x = 0%N)) as [->|Hx]; [by rewrite pretty_N_go_0|].
  rewrite pretty_N_go_step by lia.
  apply IH; [apply N.div_lt; lia|].
  split; [apply pretty_N_char_sem_espaco|done].
Qed.

Lemma pretty_N_go_nao_vazio x s : s ≠ EmptyString → pretty_N_go x s ≠ EmptyString.
Proof.
  revert s. induction (N.lt_wf_0 x) as [x _ IH]; intros s Hs.
  destruct (decide (x = 0%N)) as [->|Hx]; [by rewrite pretty_N_go_0|].
  rewrite pretty_N_go_step by lia.
  apply IH; [apply N.div_lt; lia|done].
Qed.

Lemma pretty_N_sem_espaco (x : N) : sem_espaco (pretty x) ∧ pretty x ≠ EmptyString.
Proof.
  unfold pretty, pretty_N. case_decide as Hx; [done|].
  split; [by apply pretty_N_go_sem_espaco|].
  rewrite pretty_N_go_step by lia. by apply pretty_N_go_nao_vazio.
Qed.


(** ** The loops of the normaliser *)

Lemma is_Some_proj_eq {A} (o : option A) (H : is_Some o) : o = Some (is_Some_proj H).
Proof. destruct o; [done|]. by destruct H. Qed.

Lemma laco_while_spec nome_original (X : gset string) :
  ∀ fuel contador nome r,
    laco_while fuel nome_original contador nome X = Some r →
    ((nome ∉ X) ∧ r = nome) ∨
    (nome ∈ X ∧ ∃ k, contador < k ∧ r = nome_sufixado nome_original k ∧ (r ∉ X) ∧
       ∀ j, contador < j < k → nome_sufixado nome_original j ∈ X).
Proof.
  induction fuel as [|fuel IH]; intros contador nome r; simpl;
    case_decide as Hx; intros Hr; simplify_eq; auto.
  right. split; [done|].
  apply IH in Hr as [[Hn ->]|[Hn (k & Hk & -> & Hfresh & Hused)]].
  - exists (S contador). split_and!; [lia|done|done|]. intros j ?. lia.
  - exists k. split_and!; [lia|done|done|].
    intros j Hj. destruct (decide (j = S contador)) as [->|]; [done|].
    apply Hused. lia.
Qed.

Lemma resolver_colisao_escolhido nome (anteriores : list string) :
  escolhido nome anteriores (resolver_colisao nome (list_to_set anteriores)).
Proof.
  unfold resolver_colisao, escolhido.
  pose proof (is_Some_proj_eq _ (laco_while_termina nome (list_to_set anteriores))) as H.
  apply laco_while_spec in H as [[Hn ->]|[Hn (k & Hk & Hr & Hfresh & Hused)]].
  - left. split; [|done]. by rewrite elem_of_list_to_set in Hn.
  - right. rewrite elem_of_list_to_set in Hn. split; [done|].
    exists k. rewrite elem_of_list_to_set in Hfresh. split_and!; [lia|done|done|].
    intros j Hj. rewrite <-(elem_of_list_to_set (C:=gset string)). apply Hused. lia.
Qed.

Lemma laco_for_app indice colunas mais estado :
  laco_for indice (colunas ++ mais) estado
  = laco_for (indice + length colunas) mais (laco_for indice colunas estado).
Proof.
  revert indice estado. induction colunas as [|c colunas IH]; intros indice estado; simpl.
  - by rewrite Nat.add_0_r.
  - rewrite IH. f_equal. lia.
Qed.

(** The set always holds exactly the names handed out so far. *)
Lemma laco_for_conjunto indice colunas (nomes : list string) :
  snd (laco_for indice colunas (nomes, list_to_set nomes))
  = list_to_set (fst (laco_for indice colunas (nomes, list_to_set nomes))).
Proof.
  revert indice nomes. induction colunas as [|c colunas IH]; intros indice nomes; simpl; [done|].
  set (nome := resolver_colisao _ _).
  assert ({[nome]} ∪ list_to_set nomes =@{gset string} list_to_set (nomes ++ [nome])) as ->.
  { rewrite list_to_set_app_L, (comm_L (∪)). simpl. by rewrite (right_id_L ∅ (∪)). }
  apply IH.
Qed.

(** The names of a table with one more column: the names of the table
    without it, and the name chosen for the new column. *)
Lemma preparar_snoc colunas coluna :
  preparar_nomes_colunas (colunas ++ [coluna])
  = preparar_nomes_colunas colunas
    ++ [resolver_colisao (nome_base (S (length colunas)) coluna)
          (list_to_set (preparar_nomes_colunas colunas))].
Proof.
  unfold preparar_nomes_colunas. rewrite laco_for_app. simpl.
  pose proof (laco_for_conjunto 1 colunas []) as Hset. simpl in Hset.
  destruct (laco_for 1 colunas ([], ∅)) as [nomes X]. simpl in *. by subst X.
Qed.

Lemma preparar_length colunas :
  length (preparar_nomes_colunas colunas) = length colunas.
Proof.
  induction colunas as [|c colunas IH] using rev_ind; [done|].
  rewrite preparar_snoc, !length_app, IH. done.
Qed.

Lemma preparar_escolhido colunas i coluna :
  colunas !! i = Some coluna →
  ∃ nome, preparar_nomes_colunas colunas !! i = Some nome ∧
          escolhido (nome_base (S i) coluna) (take i (preparar_nomes_colunas colunas)) nome.
Proof.
  revert i coluna. induction colunas as [|c colunas IH] using rev_ind; intros i coluna Hi; [done|].
  rewrite preparar_snoc.
  destruct (decide (i < length colunas)) as [Hlt|Hge].
  - rewrite lookup_app_l in Hi by done.
    destruct (IH _ _ Hi) as (nome & Hnome & Hesc).
    exists nome. rewrite lookup_app_l by (by rewrite preparar_length).
    split; [done|]. rewrite take_app_le by (rewrite preparar_length; lia). done.
  - assert (i = length colunas) as ->.
    { apply lookup_lt_Some in Hi. rewrite length_app in Hi. simpl in Hi. lia. }
    rewrite lookup_app_r, Nat.sub_diag in Hi by done. simplify_eq/=.
    eexists. split.
    + rewrite lookup_app_r by (by rewrite preparar_length).
      by rewrite preparar_length, Nat.sub_diag.
    + rewrite take_app_le by (by rewrite preparar_length).
      rewrite firstn_all2 by (by rewrite preparar_length).
      apply resolver_colisao_escolhido.
Qed.

Lemma nome_base_nao_vazio indice coluna : nome_base indice coluna ≠ EmptyString.
Proof. unfold nome_base. by case_decide. Qed.

Lemma nome_sufixado_nao_vazio base k : nome_sufixado base k ≠ EmptyString.
Proof.
  intros H. apply (f_equal String.length) in H.
  unfold nome_sufixado in H. rewrite !length_app_string in H. simpl in H. lia.
Qed.

Lemma escolhido_nao_vazio base anteriores nome :
  base ≠ EmptyString → escolhido base anteriores nome → nome ≠ EmptyString.
Proof.
  intros Hb [[_ ->]|[_ (k & _ & -> & _)]]; [done|]. apply nome_sufixado_nao_vazio.
Qed.

Lemma escolhido_novo base anteriores nome : escolhido base anteriores nome → nome ∉ anteriores.
Proof. by intros [[? ->]|[_ (k & _ & _ & ? & _)]]. Qed.

Lemma preparar_nao_vazio colunas :
  Forall (λ nome, nome ≠ EmptyString) (preparar_nomes_colunas colunas).
Proof.
  induction colunas as [|c colunas IH] using rev_ind; [by constructor|].
  rewrite preparar_snoc. apply Forall_app. split; [done|].
  constructor; [|done].
  eapply escolhido_nao_vazio; [|apply resolver_colisao_escolhido].
  apply nome_base_nao_vazio.
Qed.

Lemma preparar_NoDup colunas : NoDup (preparar_nomes_colunas colunas).
Proof.
  induction colunas as [|c colunas IH] using rev_ind; [by constructor|].
  rewrite preparar_snoc. apply NoDup_app. split_and!; [done| |apply NoDup_singleton].
  intros x Hx ->%list_elem_of_singleton. revert Hx.
  eapply escolhido_novo, resolver_colisao_escolhido.
Qed.

Lemma preparar_prefixo colunas mais :
  take (length colunas) (preparar_nomes_colunas (colunas ++ mais))
  = preparar_nomes_colunas colunas.
Proof.
  induction mais as [|c mais IH] using rev_ind.
  - rewrite app_nil_r, <-(preparar_length colunas). apply firstn_all.
  - rewrite app_assoc, preparar_snoc.
    rewrite take_app_le by (rewrite preparar_length, length_app; lia). done.
Qed.

Lemma preparar_sem_colisao colunas :
  Forall (λ coluna, rotulo coluna ≠ EmptyString) colunas →
  NoDup (rotulo <$> colunas) →
  preparar_nomes_colunas colunas = rotulo <$> colunas.
Proof.
  induction colunas as [|c colunas IH] using rev_ind; [done|].
  rewrite Forall_app, fmap_app, NoDup_app, Forall_singleton.
  intros [Hall Hc] (Hnd & Hfresh & _).
  rewrite preparar_snoc, IH by done. f_equal. simpl. f_equal.
  assert (nome_base (S (length colunas)) c = rotulo c) as ->.
  { unfold nome_base. fold (rotulo c). by case_decide. }
  destruct (resolver_colisao_escolhido (rotulo c) (rotulo <$> colunas))
    as [[_ ->]|[Hin _]]; [done|].
  exfalso. apply (Hfresh _ Hin). by apply list_elem_of_singleton.
Qed.

(** ** The header normaliser *)

(** C1.  For every sequence of N column labels, [preparar_nomes_colunas]
    returns N strings, every one non-empty, all pairwise distinct, the
    i-th one being the name chosen for the i-th label (its trimmed text or
    its placeholder, with a suffix when that name was taken); when the
    trimmed labels are all non-blank and pairwise distinct, the output is
    the trimmed input unchanged. *)
Theorem preparar_nomes_colunas_correto (colunas : list PyVal) :
  let nomes := preparar_nomes_colunas colunas in
  length nomes = length colunas ∧
  Forall (λ nome, nome ≠ EmptyString) nomes ∧
  NoDup nomes ∧
  (∀ i coluna, colunas !! i = Some coluna →
     ∃ nome, nomes !! i = Some nome ∧
             escolhido (nome_base (S i) coluna) (take i nomes) nome) ∧
  (Forall (λ coluna, rotulo coluna ≠ EmptyString) colunas →
   NoDup (rotulo <$> colunas) →
   nomes = rotulo <$> colunas).
Proof.
  simpl. split_and!.
  - apply preparar_length.
  - apply preparar_nao_vazio.
  - apply preparar_NoDup.
  - apply preparar_escolhido.
  - apply preparar_sem_colisao.
Qed.

Lemma preparar_nomes_colunas_correto_witness :
  let colunas := [PyStr " Nome "; PyInt 7; PyStr "Pre" ] in
  Forall (λ coluna, rotulo coluna ≠ EmptyString) colunas ∧
  NoDup (rotulo <$> colunas) ∧
  colunas !! 1 = Some (PyInt 7) ∧
  preparar_nomes_colunas colunas = ["Nome"; "7"; "Pre"] ∧
  ∃ nome, preparar_nomes_colunas colunas !! 1 = Some nome ∧
          escolhido (nome_base 2 (PyInt 7)) (take 1 (preparar_nomes_colunas colunas)) nome.
Proof.
  cbv zeta.
  assert (Forall (λ coluna, rotulo coluna ≠ EmptyString)
            [PyStr " Nome "; PyInt 7; PyStr "Pre"]) as Hall.
  { repeat constructor; vm_compute; discriminate. }
  assert (NoDup (rotulo <$> [PyStr " Nome "; PyInt 7; PyStr "Pre"])) as Hnd.
  { apply (bool_decide_unpack _). vm_compute. exact I. }
  destruct (preparar_nomes_colunas_correto [PyStr " Nome "; PyInt 7; PyStr "Pre"])
    as (_ & _ & _ & Hesc & Heq).
  split_and!; [exact Hall|exact Hnd|reflexivity| |exact (Hesc 1 (PyInt 7) eq_refl)].
  rewrite (Heq Hall Hnd). vm_compute. reflexivity.
Defined.

(** C2, as the code has it.  A label whose trimmed text is empty gets the
    placeholder [coluna_<position>], the position counted from 1, as its
    name before collisions are resolved; an empty label, x and an empty
    label give [coluna_1; x; coluna_3]. *)
Theorem placeholder_coluna (colunas : list PyVal) :
  let nomes := preparar_nomes_colunas colunas in
  (∀ i coluna, colunas !! i = Some coluna → rotulo coluna = EmptyString →
     nome_base (S i) coluna = "coluna_" +:+ pretty (S i) ∧
     ∃ nome, nomes !! i = Some nome ∧
             escolhido ("coluna_" +:+ pretty (S i)) (take i nomes) nome) ∧
  preparar_nomes_colunas [PyStr EmptyString; PyStr "x"; PyStr EmptyString]
  = ["coluna_1"; "x"; "coluna_3"].
Proof.
  simpl. split; [|by vm_compute].
  intros i coluna Hi Hvazio.
  assert (nome_base (S i) coluna = "coluna_" +:+ pretty (S i)) as Hbase.
  { unfold nome_base. fold (rotulo coluna). by case_decide. }
  split; [done|]. rewrite <-Hbase. by apply preparar_escolhido.
Qed.

Lemma placeholder_coluna_witness :
  let colunas := [PyStr EmptyString; PyStr "x"; PyStr "   "] in
  colunas !! 2 = Some (PyStr "   ") ∧ rotulo (PyStr "   ") = EmptyString ∧
  nome_base 3 (PyStr "   ") = "coluna_3".
Proof.
  simpl. split_and!; [reflexivity|reflexivity|].
  destruct (placeholder_coluna [PyStr EmptyString; PyStr "x"; PyStr "   "]) as [H _].
  destruct (H 2 (PyStr "   ") eq_refl eq_refl) as [Hbase _].
  rewrite Hbase. vm_compute. reflexivity.
Defined.

(** C2, as the spec words it, fails: the placeholder is not [column_<position>]. *)
Lemma placeholder_nao_e_column :
  preparar_nomes_colunas [PyStr EmptyString; PyStr "x"; PyStr EmptyString]
  ≠ ["column_1"; "x"; "column_3"].
Proof. vm_compute. discriminate. Qed.

(** C3.  A column whose name is free gets it unsuffixed; a column whose
    name was already assigned earlier in the pass gets [_k] appended, k
    the first integer from 2 on whose suffixed name is unused.  Names
    assigned earlier are never revised, so the first occurrence keeps the
    unsuffixed name; [a; a; a] gives [a; a_2; a_3].  The function is a
    function of the label sequence alone. *)
Theorem regra_de_colisao (colunas : list PyVal) :
  let nomes := preparar_nomes_colunas colunas in
  (∀ i coluna, colunas !! i = Some coluna →
     let base := nome_base (S i) coluna in
     let anteriores := take i nomes in
     (base ∉ anteriores → nomes !! i = Some base) ∧
     (base ∈ anteriores →
      ∃ k, 2 ≤ k ∧ nomes !! i = Some (nome_sufixado base k) ∧
           (nome_sufixado base k ∉ anteriores) ∧
           ∀ j, 2 ≤ j < k → nome_sufixado base j ∈ anteriores)) ∧
  (∀ mais, take (length colunas) (preparar_nomes_colunas (colunas ++ mais)) = nomes) ∧
  preparar_nomes_colunas [PyStr "a"; PyStr "a"; PyStr "a"] = ["a"; "a_2"; "a_3"].
Proof.
  simpl. split_and!; [|apply preparar_prefixo|by vm_compute].
  intros i coluna Hi.
  destruct (preparar_escolhido _ _ _ Hi) as (nome & Hnome & Hesc).
  split; intros Hbase.
  - destruct Hesc as [[_ ->]|[? _]]; done.
  - destruct Hesc as [[? _]|[_ (k & Hk & -> & Hnovo & Husados)]]; [done|].
    exists k. done.
Qed.

Lemma regra_de_colisao_witness :
  let colunas := [PyStr "a_2"; PyStr "a"; PyStr " a"] in
  colunas !! 2 = Some (PyStr " a") ∧
  nome_base 3 (PyStr " a") ∈ take 2 (preparar_nomes_colunas colunas) ∧
  ∃ k, 2 ≤ k ∧
       preparar_nomes_colunas colunas !! 2 = Some (nome_sufixado (nome_base 3 (PyStr " a")) k).
Proof.
  simpl.
  assert (nome_base 3 (PyStr " a")
          ∈ take 2 (preparar_nomes_colunas [PyStr "a_2"; PyStr "a"; PyStr " a"])) as Hin.
  { apply (bool_decide_unpack _). vm_compute. exact I. }
  split_and!; [reflexivity|exact Hin|].
  destruct (regra_de_colisao [PyStr "a_2"; PyStr "a"; PyStr " a"]) as (H & _ & _).
  destruct (H 2 (PyStr " a") eq_refl) as [_ Hcol].
  destruct (Hcol Hin) as (k & Hk & Hnome & _).
  exists k. split; [exact Hk|exact Hnome].
Defined.




(** ** The write phase *)

(** Inside a transaction the rows go, one after the other, to the table the
    transaction sees; the file is not touched. *)
Lemma aplicar_todas_insert tabela colunas valores (arquivo visto : Banco) anteriores :
  visto !! sqlite_lower tabela
    = Some {| tab_colunas := colunas; tab_linhas := anteriores |} →
  ∃ visto',
    aplicar_todas (InsertInto tabela colunas) valores
      {| banco := arquivo;
         conexao := Some {| transacao := Some visto; aberta := true |} |}
    = (match primeira_recusa colunas valores with
       | None => Ok ()
       | Some e => Erro e
       end,
       {| banco := arquivo;
          conexao := Some {| transacao := Some visto'; aberta := true |} |})
    ∧ (primeira_recusa colunas valores = None →
       visto' = <[sqlite_lower tabela :=
                   {| tab_colunas := colunas;
                      tab_linhas := anteriores ++ valores |}]> visto).
Proof.
  revert visto anteriores.
  induction valores as [|parametros resto IH]; intros visto anteriores Htab.
  - exists visto. split; [done|]. intros _. rewrite app_nil_r. by rewrite insert_id.
  - cbn [aplicar_todas primeira_recusa].
    unfold ligar at 1. unfold aplicar, com_aberta. cbn [conexao aberta transacao banco].
    cbn [executar_sql]. rewrite Htab. cbn [tab_colunas tab_linhas].
    rewrite decide_True by done.
    destruct (recusa_linha colunas parametros) as [e|] eqn:Hrec.
    + exists visto. split; [done|]. intros [=].
    + edestruct (IH (<[sqlite_lower tabela :=
                        {| tab_colunas := colunas;
                           tab_linhas := anteriores ++ [parametros] |}]> visto)
                    (anteriores ++ [parametros])) as (visto' & Hrun & Hfim).
      { by rewrite lookup_insert_eq. }
      exists visto'. split; [exact Hrun|].
      intros Hnone. rewrite (Hfim Hnone), insert_insert_eq, <-app_assoc. done.
Qed.

(** What the [with] block of [importar_planilha] does to the world. *)
Lemma escrita_eq colunas dados (m : Mundo) :
  with_connect
    (criar_tabela_produtos colunas ;; inserir_registros colunas dados ;; conexao_commit) m
  = match recusa_colunas colunas with
    | Some e =>
        (Erro e, {| banco := delete (sqlite_lower tabela_destino) (banco m);
                    conexao := Some livre |})
    | None =>
        match primeira_recusa colunas (valores_de dados) with
        | Some e =>
            (Erro e,
             {| banco := <[sqlite_lower tabela_destino :=
                            {| tab_colunas := colunas; tab_linhas := [] |}]> (banco m);
                conexao := Some livre |})
        | None =>
            (Ok (),
             {| banco := <[sqlite_lower tabela_destino :=
                            {| tab_colunas := colunas;
                               tab_linhas := valores_de dados |}]> (banco m);
                conexao := Some livre |})
        end
    end.
Proof.
  unfold with_connect, sqlite3_connect, criar_tabela_produtos, inserir_registros.
  unfold cursor_execute, cursor_executemany, inserir_sql.
  generalize tabela_destino. intros tabela.
  unfold ligar, comecar, aplicar, com_aberta.
  cbn [conexao aberta transacao banco is_dml executar_sql].
  rewrite decide_True by done.
  cbn [conexao aberta transacao banco is_dml executar_sql].
  rewrite decide_True by done.
  rewrite decide_False by (rewrite lookup_delete_eq; by intros [? [=]]).
  destruct (recusa_colunas colunas) as [e|] eqn:Hcol.
  { done. }
  cbn [conexao aberta transacao banco is_dml].
  rewrite insert_delete_eq.
  edestruct (aplicar_todas_insert tabela colunas (valores_de dados)
               (<[sqlite_lower tabela := {| tab_colunas := colunas; tab_linhas := [] |}]>
                  (banco m))
               (<[sqlite_lower tabela := {| tab_colunas := colunas; tab_linhas := [] |}]>
                  (banco m)) []) as (visto' & Hrun & Hfim).
  { by rewrite lookup_insert_eq. }
  fold (aplicar_todas (InsertInto tabela colunas) (valores_de dados)).
  rewrite Hrun.
  destruct (primeira_recusa colunas (valores_de dados)) as [e|] eqn:Hrec.
  - done.
  - rewrite (Hfim eq_refl). unfold conexao_commit, com_aberta.
    cbn [conexao aberta transacao banco]. rewrite insert_insert_eq. done.
Qed.

Lemma inserir_registros_eq colunas dados (m : Mundo) c anteriores :
  conexao m = Some c → aberta c = true →
  visao m !! sqlite_lower tabela_destino
    = Some {| tab_colunas := colunas; tab_linhas := anteriores |} →
  ∃ visto',
    inserir_registros colunas dados m
    = (match primeira_recusa colunas (valores_de dados) with
       | None => Ok ()
       | Some e => Erro e
       end,
       {| banco := banco m;
          conexao := Some {| transacao := Some visto'; aberta := true |} |})
    ∧ (primeira_recusa colunas (valores_de dados) = None →
       visto' = <[sqlite_lower tabela_destino :=
                   {| tab_colunas := colunas;
                      tab_linhas := anteriores ++ valores_de dados |}]> (visao m)).
Proof.
  destruct m as [arquivo con]. cbn [conexao]. intros -> Hab.
  destruct c as [tr ab]. cbn [aberta] in Hab. subst ab.
  unfold visao. cbn [conexao banco transacao]. intros Htab.
  unfold inserir_registros, cursor_executemany, inserir_sql.
  unfold ligar at 1. unfold comecar, com_aberta. cbn [conexao aberta transacao banco is_dml].
  destruct tr as [visto|].
  - by apply aplicar_todas_insert.
  - by apply aplicar_todas_insert.
Qed.

Lemma valores_de_lookup dados i j linha valor :
  linhas dados !! i = Some linha → linha !! j = Some valor →
  ∃ parametros,
    valores_de dados !! i = Some parametros ∧
    parametros !! j = Some (if pd_isna valor then PyNone else valor).
Proof.
  intros Hi Hj. unfold valores_de. rewrite list_lookup_fmap, Hi. simpl.
  eexists. split; [done|]. by rewrite list_lookup_fmap, Hj.
Qed.

(** ** Insertion *)

(** C4.  [inserir_registros] gives the bulk insert one parameter per
    cell: None for a cell that is a missing marker, the cell itself for
    any other cell, so no missing cell arrives as NaN, as the text NaN or
    as the empty text.  The statement text has the escaped column names
    and one question mark per column, and no cell value.  When the call
    succeeds the destination table has gained exactly these parameter
    rows, and the file is as it was. *)
Theorem inserir_registros_parametros (colunas : list string) (dados : DataFrame) :
  (∀ i j linha valor,
     linhas dados !! i = Some linha → linha !! j = Some valor →
     ∃ parametros p,
       valores_de dados !! i = Some parametros ∧ parametros !! j = Some p ∧
       (pd_isna valor = true →
        p = PyNone ∧ p ≠ PyNaN ∧ p ≠ PyStr "NaN" ∧ p ≠ PyStr EmptyString) ∧
       (pd_isna valor = false → p = valor)) ∧
  length (valores_de dados) = length (linhas dados) ∧
  sql_texto (inserir_sql colunas)
  = "INSERT INTO produtos_bling (" +:+ join ", " (entre_aspas <$> colunas)
      +:+ ") VALUES (" +:+ join ", " (replicate (length colunas) "?") +:+ ")" ∧
  (∀ m m' anteriores,
     visao m !! sqlite_lower tabela_destino
       = Some {| tab_colunas := colunas; tab_linhas := anteriores |} →
     inserir_registros colunas dados m = (Ok (), m') →
     visao m' !! sqlite_lower tabela_destino
       = Some {| tab_colunas := colunas;
                 tab_linhas := anteriores ++ valores_de dados |}
     ∧ banco m' = banco m).
Proof.
  split_and!.
  - intros i j linha valor Hi Hj.
    destruct (valores_de_lookup _ _ _ _ _ Hi Hj) as (parametros & Hp & Hv).
    exists parametros, (if pd_isna valor then PyNone else valor).
    split_and!; [done|done| |]; by intros ->.
  - unfold valores_de. by rewrite length_fmap.
  - done.
  - intros m m' anteriores Htab Hrun.
    destruct (conexao m) as [c|] eqn:Hc; cycle 1.
    { unfold inserir_registros, cursor_executemany, ligar, comecar, com_aberta in Hrun.
      by rewrite Hc in Hrun. }
    destruct (aberta c) eqn:Hab; cycle 1.
    { unfold inserir_registros, cursor_executemany, ligar, comecar, com_aberta in Hrun.
      by rewrite Hc, Hab in Hrun. }
    destruct (inserir_registros_eq colunas dados m c anteriores Hc Hab Htab)
      as (visto' & Heq & Hfim).
    rewrite Heq in Hrun.
    destruct (primeira_recusa colunas (valores_de dados)); [done|].
    simplify_eq. unfold visao at 1. cbn [conexao transacao banco].
    rewrite (Hfim eq_refl). by rewrite lookup_insert_eq.
Qed.

(** ** The import run *)

Section Execucao.
Variable pd_read_csv : Path → Resultado DataFrame.
Variable pd_read_excel : Path → Resultado DataFrame.

Local Abbreviation ler := (read_planilha pd_read_csv pd_read_excel).
Local Abbreviation importar := (importar_planilha pd_read_csv pd_read_excel).

(** A run, stage by stage: the reader fails and nothing is touched; the
    CREATE fails after the DROP; an insert fails and the transaction of
    the inserts is rolled back; or everything succeeds. *)
Lemma importar_planilha_eq caminho (m : Mundo) :
  importar caminho m
  = match ler caminho with
    | Erro e => (Erro e, m)
    | Ok dataframe =>
        let colunas := preparar_nomes_colunas (columns dataframe) in
        match recusa_colunas colunas with
        | Some e =>
            (Erro e, {| banco := delete (sqlite_lower tabela_destino) (banco m);
                        conexao := Some livre |})
        | None =>
            match primeira_recusa colunas (valores_de dataframe) with
            | Some e =>
                (Erro e,
                 {| banco := <[sqlite_lower tabela_destino :=
                                {| tab_colunas := colunas; tab_linhas := [] |}]> (banco m);
                    conexao := Some livre |})
            | None =>
                (Ok (),
                 {| banco := <[sqlite_lower tabela_destino :=
                                {| tab_colunas := colunas;
                                   tab_linhas := valores_de dataframe |}]> (banco m);
                    conexao := Some livre |})
            end
        end
    end.
Proof.
  unfold importar_planilha. destruct (ler caminho) as [dataframe|e]; [|done].
  cbv zeta. by rewrite escrita_eq.
Qed.



(** C7.  A path whose extension, lower-cased, is none of .csv, .xls and
    .xlsx makes [read_planilha] fail with the UnsupportedFormat error,
    whose message names the three extensions; [importar_planilha] then
    returns that error with the world as it was: no connection is
    opened and no table is touched. *)
Theorem formato_nao_suportado (caminho : Path) :
  lower (suffix caminho) ∉ [".csv"; ".xls"; ".xlsx"] →
  ler caminho = Erro UnsupportedFormat ∧
  (∀ ext, ext ∈ [".csv"; ".xls"; ".xlsx"] → contem ext msg_formato) ∧
  (∀ m, importar caminho m = (Erro UnsupportedFormat, m)).
Proof.
  intros Hext.
  assert (ler caminho = Erro UnsupportedFormat) as Hler.
  { rewrite !not_elem_of_cons in Hext. destruct Hext as (Hcsv & Hxls & Hxlsx & _).
    unfold read_planilha, carregar.
    rewrite decide_False by done.
    rewrite decide_False by (rewrite !elem_of_cons, elem_of_nil; by intros [?|[?|[]]]).
    done. }
  split_and!; [done| |].
  - intros ext Hin. rewrite !elem_of_cons, elem_of_nil in Hin.
    destruct Hin as [->|[->|[->|[]]]].
    + exists ("Formato de arquivo n" +:+ String "227" "o suportado. Utilize arquivos "),
             ", .xls ou .xlsx.". by vm_compute.
    + exists ("Formato de arquivo n" +:+ String "227" "o suportado. Utilize arquivos .csv, "),
             " ou .xlsx.". by vm_compute.
    + exists ("Formato de arquivo n" +:+ String "227"
                "o suportado. Utilize arquivos .csv, .xls ou "), ".". by vm_compute.
  - intros m. unfold importar_planilha. by rewrite Hler.
Qed.

(** C8.  When the parser gives a table without rows, [read_planilha]
    fails with the EmptyInput error and [importar_planilha] returns it
    with the world as it was; the reader is a function of the path and of
    what the parsers give, and touches nothing.  When the parser gives a
    table with at least one row (and so at least one column), the reader
    returns that table. *)
Theorem planilha_vazia (caminho : Path) (dataframe : DataFrame) :
  carregar pd_read_csv pd_read_excel caminho = Ok dataframe →
  (linhas dataframe = [] →
   ler caminho = Erro EmptyInput ∧
   ∀ m, importar caminho m = (Erro EmptyInput, m)) ∧
  (linhas dataframe ≠ [] → columns dataframe ≠ [] → ler caminho = Ok dataframe).
Proof.
  intros Hcar. split.
  - intros Hvazia.
    assert (ler caminho = Erro EmptyInput) as Hler.
    { unfold read_planilha. rewrite Hcar. unfold df_empty. rewrite Hvazia.
      by destruct (columns dataframe). }
    split; [done|]. intros m. unfold importar_planilha. by rewrite Hler.
  - intros Hl Hc. unfold read_planilha. rewrite Hcar. unfold df_empty.
    by destruct (columns dataframe), (linhas dataframe).
Qed.

(** C9, as the code has it.  When the reader fails no connection is
    acquired.  Otherwise, on every exit path, committed or failed, the
    transaction on the connection is ended before the function returns;
    the connection itself is left open. *)
Theorem conexao_ao_retornar (caminho : Path) (m : Mundo) :
  let r := importar caminho m in
  match ler caminho with
  | Erro _ => conexao (snd r) = conexao m
  | Ok _ =>
      ∃ c, conexao (snd r) = Some c ∧ transacao c = None ∧ aberta c = true
  end.
Proof.
  cbv zeta. rewrite importar_planilha_eq.
  destruct (ler caminho) as [dataframe|e]; [|done]. cbv zeta.
  exists livre.
  destruct (recusa_colunas _) as [e|]; [done|].
  by destruct (primeira_recusa _ _) as [e|].
Qed.

End Execucao.

(** * Further properties *)

(** ** Names come out trimmed *)

Lemma lstrip_inicio_limpo s : inicio_limpo (lstrip s).
Proof.
  induction s as [|c s IH]; simpl; [done|].
  by destruct (is_space c) eqn:Hc.
Qed.

Lemma lstrip_limpo s : inicio_limpo s → lstrip s = s.
Proof. destruct s as [|c s]; simpl; [done|]. by intros ->. Qed.

Lemma rstrip_inicio_limpo s : inicio_limpo s → inicio_limpo (rstrip s).
Proof.
  destruct s as [|c s]; simpl; [done|]. intros Hc.
  destruct (rstrip s); [by rewrite Hc|done].
Qed.

Lemma rstrip_idemp s : rstrip (rstrip s) = rstrip s.
Proof.
  induction s as [|c s IH]; simpl; [done|].
  destruct (rstrip s) as [|c' r] eqn:Hr.
  - destruct (is_space c) eqn:Hc; simpl; [done|by rewrite Hc].
  - change (rstrip (String c (String c' r)))
      with (match rstrip (String c' r) with
            | EmptyString => if is_space c then EmptyString else String c EmptyString
            | r' => String c r'
            end).
    by rewrite IH.
Qed.

Lemma strip_idemp s : strip (strip s) = strip s.
Proof.
  unfold strip.
  rewrite (lstrip_limpo (rstrip (lstrip s)))
    by apply rstrip_inicio_limpo, lstrip_inicio_limpo.
  apply rstrip_idemp.
Qed.

Lemma strip_inicio_limpo s : strip s = s → inicio_limpo s.
Proof. intros <-. apply rstrip_inicio_limpo, lstrip_inicio_limpo. Qed.

Lemma strip_rstrip s : strip s = s → rstrip s = s.
Proof.
  intros Hs. pose proof (strip_inicio_limpo _ Hs) as Hl.
  unfold strip in Hs. by rewrite (lstrip_limpo _ Hl) in Hs.
Qed.

Lemma rstrip_app s t : t ≠ EmptyString → rstrip t = t → rstrip (s +:+ t) = s +:+ t.
Proof.
  intros Hne Ht. induction s as [|c s IH]; [done|].
  change (String c s +:+ t) with (String c (s +:+ t)).
  cbn [rstrip]. rewrite IH.
  destruct (s +:+ t) eqn:Happ; [|done].
  destruct s as [|c' s'];
    [by change (t = EmptyString) in Happ
    |change (String c' (s' +:+ t) = EmptyString) in Happ; discriminate].
Qed.

Lemma strip_app s t :
  s ≠ EmptyString → strip s = s → t ≠ EmptyString → rstrip t = t →
  strip (s +:+ t) = s +:+ t.
Proof.
  intros Hs Hstrip Ht Hr. unfold strip.
  rewrite lstrip_limpo.
  - by apply rstrip_app.
  - apply strip_inicio_limpo in Hstrip. by destruct s.
Qed.

Lemma sem_espaco_app s t : sem_espaco s → sem_espaco t → sem_espaco (s +:+ t).
Proof.
  intros Hs Ht. induction s as [|c s IH]; [done|].
  destruct Hs as [Hc Hs]. split; [done|by apply IH].
Qed.

Lemma pretty_nat_sem_espaco (n : nat) : sem_espaco (pretty n).
Proof. apply (pretty_N_sem_espaco (N.of_nat n)). Qed.

Lemma nome_sufixado_aparado base k :
  base ≠ EmptyString → strip base = base →
  strip (nome_sufixado base k) = nome_sufixado base k.
Proof.
  intros Hne Hbase. unfold nome_sufixado. apply strip_app; [done|done|done|].
  apply rstrip_sem_espaco. split; [done|apply pretty_nat_sem_espaco].
Qed.

Lemma nome_base_aparado indice coluna :
  strip (nome_base indice coluna) = nome_base indice coluna.
Proof.
  unfold nome_base. case_decide.
  - apply strip_sem_espaco, sem_espaco_app; [by repeat split|apply pretty_nat_sem_espaco].
  - apply strip_idemp.
Qed.

Lemma escolhido_aparado base anteriores nome :
  base ≠ EmptyString → strip base = base → escolhido base anteriores nome →
  strip nome = nome.
Proof.
  intros Hne Hbase [[_ ->]|[_ (k & _ & -> & _)]]; [done|].
  by apply nome_sufixado_aparado.
Qed.

Lemma preparar_aparado (colunas : list PyVal) :
  Forall (λ nome, strip nome = nome) (preparar_nomes_colunas colunas).
Proof.
  induction colunas as [|c colunas IH] using rev_ind; [by constructor|].
  rewrite preparar_snoc. apply Forall_app. split; [done|].
  constructor; [|done].
  eapply escolhido_aparado; [| |apply resolver_colisao_escolhido].
  - apply nome_base_nao_vazio.
  - apply nome_base_aparado.
Qed.

(** X1.  No name the normaliser returns starts or ends with whitespace:
    trimming a returned name gives the name back, and the name is not
    empty. *)
Theorem nomes_aparados (colunas : list PyVal) :
  Forall (λ nome, strip nome = nome ∧ inicio_limpo nome ∧ rstrip nome = nome
                  ∧ nome ≠ EmptyString)
    (preparar_nomes_colunas colunas).
Proof.
  pose proof (preparar_aparado colunas) as Hap.
  pose proof (preparar_nao_vazio colunas) as Hne.
  apply Forall_forall. intros nome Hin.
  rewrite Forall_forall in Hap. rewrite Forall_forall in Hne.
  pose proof (Hap _ Hin) as Hs.
  split_and!; [done|by apply strip_inicio_limpo|by apply strip_rstrip|by apply Hne].
Qed.

(** X2.  Normalising is idempotent: the names returned for a table, taken
    as the labels of a table, are returned unchanged. *)
Theorem preparar_idempotente (colunas : list PyVal) :
  preparar_nomes_colunas (PyStr <$> preparar_nomes_colunas colunas)
  = preparar_nomes_colunas colunas.
Proof.
  pose proof (preparar_aparado colunas) as Hap.
  pose proof (preparar_nao_vazio colunas) as Hne.
  pose proof (preparar_NoDup colunas) as Hnd.
  set (nomes := preparar_nomes_colunas colunas) in *.
  assert (rotulo <$> (PyStr <$> nomes) = nomes) as Hrot.
  { rewrite <-list_fmap_compose. rewrite <-(list_fmap_id nomes) at 2.
    apply Forall_fmap_ext_1. eapply Forall_impl; [exact Hap|]. done. }
  rewrite preparar_sem_colisao; [done| |by rewrite Hrot].
  rewrite Forall_fmap. apply Forall_forall. intros nome Hin.
  rewrite Forall_forall in Hap. rewrite Forall_forall in Hne.
  unfold rotulo. simpl. rewrite (Hap _ Hin). by apply Hne.
Qed.

Lemma candidatos_NoDup base n :
  NoDup (base :: (nome_sufixado base <$> seq 2 n)).
Proof.
  constructor.
  - intros (j & Hj & _)%list_elem_of_fmap. symmetry in Hj.
    by apply nome_sufixado_neq in Hj.
  - apply NoDup_fmap_2; [apply nome_sufixado_inj|apply NoDup_seq].
Qed.

(** X3.  The suffix counter stays small: the column at position p
    (counted from 1) keeps its name or gets a suffix [_k] with
    2 <= k <= p, so the loop of lines 56-58 runs fewer than p times. *)
Theorem sufixo_limitado (colunas : list PyVal) (i : nat) (coluna : PyVal) :
  colunas !! i = Some coluna →
  let base := nome_base (S i) coluna in
  preparar_nomes_colunas colunas !! i = Some base ∨
  ∃ k, 2 ≤ k ≤ S i ∧
       preparar_nomes_colunas colunas !! i = Some (nome_sufixado base k).
Proof.
  intros Hi. cbv zeta.
  destruct (preparar_escolhido _ _ _ Hi) as (nome & Hnome & Hesc).
  destruct Hesc as [[_ ->]|[Hin (k & Hk & -> & _ & Husados)]]; [by left|].
  right. exists k. split; [|done]. split; [done|].
  set (anteriores := take i (preparar_nomes_colunas colunas)) in *.
  assert (length (nome_base (S i) coluna
                  :: (nome_sufixado (nome_base (S i) coluna) <$> seq 2 (k - 2)))
          ≤ length anteriores) as Hlen.
  { apply submseteq_length, NoDup_submseteq; [apply candidatos_NoDup|].
    intros x [->|(j & -> & Hj%elem_of_seq)%list_elem_of_fmap]%elem_of_cons; [done|].
    apply Husados. lia. }
  simpl in Hlen. rewrite length_fmap, length_seq in Hlen.
  assert (length anteriores ≤ i) by (unfold anteriores; rewrite length_take; lia).
  lia.
Qed.

Lemma sufixo_limitado_witness :
  let colunas := [PyStr "a"; PyStr "a_2"; PyStr " a"] in
  colunas !! 2 = Some (PyStr " a") ∧
  preparar_nomes_colunas colunas !! 2 = Some (nome_sufixado "a" 3).
Proof.
  cbv zeta. split; [reflexivity|].
  destruct (sufixo_limitado [PyStr "a"; PyStr "a_2"; PyStr " a"] 2 (PyStr " a") eq_refl)
    as [H|(k & Hk & H)]; [by vm_compute in H|].
  rewrite H. by vm_compute.
Defined.

(** ** Escaped identifiers *)

Lemma app_assoc_string (s t u : string) : (s +:+ t) +:+ u = s +:+ (t +:+ u).
Proof.
  induction s as [|c s IH]; [done|].
  change (String c ((s +:+ t) +:+ u) = String c (s +:+ (t +:+ u))). by rewrite IH.
Qed.

Lemma ler_corpo_escapado nome resto :
  inicio_sem_aspas resto →
  ler_corpo (escapar_identificador nome +:+ String aspas resto) = Some (nome, resto).
Proof.
  intros Hresto. induction nome as [|c nome IH].
  - change (ler_corpo (String aspas resto) = Some (EmptyString, resto)).
    cbn [ler_corpo]. rewrite decide_True by done.
    destruct resto as [|c' resto']; [done|].
    by rewrite decide_False.
  - cbn [escapar_identificador]. case_decide as Hc.
    + subst c.
      change (ler_corpo (String aspas (String aspas
                (escapar_identificador nome +:+ String aspas resto)))
              = Some (String aspas nome, resto)).
      cbn [ler_corpo]. rewrite !decide_True by done. by rewrite IH.
    + change (ler_corpo (String c (escapar_identificador nome +:+ String aspas resto))
              = Some (String c nome, resto)).
      cbn [ler_corpo]. rewrite decide_False by done. by rewrite IH.
Qed.

(** X4.  A name between quotes, as lines 80 and 89 write it into a
    statement, is read back by SQL as exactly that name, whatever
    characters it holds, and reading stops right after it: a header
    cannot close its identifier early and put statement text of its own
    into the SQL. *)
Theorem identificador_ida_e_volta (nome resto : string) :
  inicio_sem_aspas resto →
  ler_identificador (entre_aspas nome +:+ resto) = Some (nome, resto).
Proof.
  intros Hresto. unfold entre_aspas.
  change (String aspas (escapar_identificador nome))
    with (String aspas EmptyString +:+ escapar_identificador nome).
  rewrite !app_assoc_string.
  change (ler_identificador
            (String aspas (escapar_identificador nome +:+ String aspas resto))
          = Some (nome, resto)).
  cbn [ler_identificador]. rewrite decide_True by done.
  by apply ler_corpo_escapado.
Qed.

Lemma identificador_ida_e_volta_witness :
  let nome := String aspas "x" +:+ String aspas " TEXT); DROP TABLE t; --" in
  inicio_sem_aspas " TEXT, " ∧
  ler_identificador (entre_aspas nome +:+ " TEXT, ") = Some (nome, " TEXT, ").
Proof.
  cbv zeta.
  assert (inicio_sem_aspas " TEXT, ") as H by (by vm_compute).
  split; [exact H|].
  exact (identificador_ida_e_volta _ _ H).
Defined.

(** X5.  [escapar_identificador] is injective, adds one character per
    double quote of the name, and returns the name itself exactly when
    the name has no double quote. *)
Theorem escapar_identificador_injetivo :
  (∀ s t, escapar_identificador s = escapar_identificador t → s = t) ∧
  (∀ s, String.length (escapar_identificador s) = String.length s + contar_aspas s) ∧
  (∀ s, escapar_identificador s = s ↔ contar_aspas s = 0).
Proof.
  assert (∀ s, String.length (escapar_identificador s)
               = String.length s + contar_aspas s) as Hlen.
  { induction s as [|c s IH]; [done|].
    cbn [escapar_identificador contar_aspas]. case_decide; simpl; rewrite IH; lia. }
  split_and!; [|exact Hlen|].
  - induction s as [|c s IH]; intros [|d t]; cbn [escapar_identificador];
      repeat case_decide; intros Heq; simplify_eq; try done.
    all: f_equal; by apply IH.
  - intros s. split.
    + intros Heq. pose proof (Hlen s) as Hl. rewrite Heq in Hl. lia.
    + induction s as [|c s IH]; [done|].
      cbn [escapar_identificador contar_aspas]. case_decide; [done|].
      intros Hz. by rewrite IH.
Qed.

Lemma escapar_identificador_injetivo_witness :
  contar_aspas "Nome" = 0 ∧ escapar_identificador "Nome" = "Nome" ∧
  String.length (escapar_identificador (String aspas "a")) = 3.
Proof.
  destruct escapar_identificador_injetivo as (_ & Hlen & Hid).
  split_and!; [reflexivity|by apply Hid|].
  rewrite Hlen. reflexivity.
Defined.

(** ** The writer on its own *)

Lemma aplicar_todas_arquivo q valores (arquivo visto : Banco) :
  ∃ r visto',
    aplicar_todas q valores
      {| banco := arquivo;
         conexao := Some {| transacao := Some visto; aberta := true |} |}
    = (r, {| banco := arquivo;
             conexao := Some {| transacao := Some visto'; aberta := true |} |}).
Proof.
  revert visto. induction valores as [|parametros resto IH]; intros visto.
  - by exists (Ok ()), visto.
  - cbn [aplicar_todas]. unfold ligar at 1. unfold aplicar, com_aberta.
    cbn [conexao aberta transacao banco].
    destruct (executar_sql q parametros visto) as [visto1|e].
    + apply IH.
    + by exists (Erro e), visto.
Qed.

(** X6.  [inserir_registros] never changes what the database file
    holds, whatever the connection, the columns and the data are and
    whether it succeeds or raises: rows reach the file only at a commit. *)
Theorem inserir_registros_nao_grava (colunas : list string) (dados : DataFrame)
    (m : Mundo) :
  banco (snd (inserir_registros colunas dados m)) = banco m.
Proof.
  unfold inserir_registros, cursor_executemany, inserir_sql.
  destruct m as [arquivo [[tr ab]|]]; [|done].
  destruct ab; [|done].
  unfold ligar, comecar, com_aberta. cbn [conexao aberta transacao banco is_dml].
  destruct tr as [visto|].
  - destruct (aplicar_todas_arquivo (InsertInto tabela_destino colunas)
                (valores_de dados) arquivo visto) as (r & visto' & ->). done.
  - destruct (aplicar_todas_arquivo (InsertInto tabela_destino colunas)
                (valores_de dados) arquivo arquivo) as (r & visto' & ->). done.
Qed.

(** X7.  The conversion of missing cells keeps the arity of every row,
    leaves no missing marker other than None among the parameters, and
    changes nothing when it is applied to its own result. *)
Theorem valores_de_forma (dados : DataFrame) :
  (∀ i linha, linhas dados !! i = Some linha →
     ∃ parametros, valores_de dados !! i = Some parametros ∧
                   length parametros = length linha) ∧
  Forall (Forall (λ p, pd_isna p = true → p = PyNone)) (valores_de dados) ∧
  valores_de {| columns := columns dados; linhas := valores_de dados |}
  = valores_de dados.
Proof.
  split_and!.
  - intros i linha Hi. unfold valores_de. rewrite list_lookup_fmap, Hi.
    eexists. split; [done|]. by rewrite length_fmap.
  - unfold valores_de. rewrite Forall_fmap. apply Forall_true. intros linha.
    unfold compose. rewrite Forall_fmap. apply Forall_true. intros valor.
    unfold compose.
    by destruct (pd_isna valor) eqn:Hna; [|rewrite Hna].
  - unfold valores_de. cbn [linhas]. rewrite <-list_fmap_compose.
    apply list_fmap_ext. intros i linha _. simpl. rewrite <-list_fmap_compose.
    apply list_fmap_ext. intros j valor _. simpl.
    by destruct (pd_isna valor) eqn:Hna; [|rewrite Hna].
Qed.

Lemma valores_de_forma_witness :
  linhas planilha_exemplo !! 1 = Some [PyNaN; PyStr "NaN"] ∧
  ∃ parametros, valores_de planilha_exemplo !! 1 = Some parametros ∧
                length parametros = 2.
Proof.
  split; [reflexivity|].
  destruct (valores_de_forma planilha_exemplo) as (H & _ & _).
  exact (H 1 [PyNaN; PyStr "NaN"] eq_refl).
Defined.


(** ** The reader and the run, further *)

Lemma recusa_linha_None (colunas : list string) (parametros : list PyVal) :
  recusa_linha colunas parametros = None
  ↔ length parametros = length colunas ∧ recusa_valores parametros = None.
Proof.
  unfold recusa_linha. case_decide as Hlen; [|by split; [|intros [? _]]].
  by split; [|intros [_ ?]].
Qed.

Lemma primeira_recusa_None (colunas : list string) (valores : list (list PyVal)) :
  primeira_recusa colunas valores = None
  ↔ Forall (λ parametros : list PyVal, length parametros = length colunas
                          ∧ recusa_valores parametros = None) valores.
Proof.
  induction valores as [|parametros resto IH]; simpl; [by split; [constructor|]|].
  rewrite Forall_cons, <-IH, <-recusa_linha_None.
  destruct (recusa_linha colunas parametros); [by split; [|intros [? _]]|].
  by split; [|intros [_ ?]].
Qed.

Lemma csv_nao_excel (sufixo : string) :
  sufixo ∈ [".xls"; ".xlsx"] → sufixo ≠ ".csv".
Proof.
  rewrite !elem_of_cons, elem_of_nil. by intros [->|[->|[]]].
Qed.

Section Leitura.
Variable pd_read_csv : Path → Resultado DataFrame.
Variable pd_read_excel : Path → Resultado DataFrame.

Local Abbreviation ler := (read_planilha pd_read_csv pd_read_excel).
Local Abbreviation importar := (importar_planilha pd_read_csv pd_read_excel).

Lemma read_planilha_colunas (caminho : Path) (dataframe : DataFrame) :
  ler caminho = Ok dataframe → columns dataframe ≠ [].
Proof.
  unfold read_planilha. destruct (carregar _ _ caminho) as [df|e]; [|done].
  unfold df_empty. destruct (columns df) eqn:Hc; [done|].
  destruct (linhas df); [done|]. intros [= <-]. by rewrite Hc.
Qed.

(** X9.  [read_planilha] returns a table exactly when the parser chosen
    by the lower-cased extension (the text parser for .csv, the
    spreadsheet parser for .xls and .xlsx) returned it and the table has
    at least one column and at least one row; a table without columns is
    refused even when it has rows. *)
Theorem read_planilha_sucesso (caminho : Path) (dataframe : DataFrame) :
  ler caminho = Ok dataframe ↔
  (columns dataframe ≠ [] ∧ linhas dataframe ≠ []) ∧
  ((lower (suffix caminho) = ".csv" ∧ pd_read_csv caminho = Ok dataframe) ∨
   (lower (suffix caminho) ∈ [".xls"; ".xlsx"] ∧ pd_read_excel caminho = Ok dataframe)).
Proof.
  unfold read_planilha, carregar.
  case_decide as Hcsv; [|case_decide as Hxls].
  - destruct (pd_read_csv caminho) as [df|e] eqn:Hp.
    + unfold df_empty. split.
      * destruct (columns df) eqn:Hc, (linhas df) eqn:Hl; intros [=]; subst.
        rewrite Hc, Hl. split; [done|]. by left.
      * intros [[Hc Hl] [[_ [= ->]]|[?%csv_nao_excel _]]]; [|done].
        by destruct (columns dataframe), (linhas dataframe).
    + split; [done|]. by intros [_ [[_ ?]|[?%csv_nao_excel _]]].
  - destruct (pd_read_excel caminho) as [df|e] eqn:Hp.
    + unfold df_empty. split.
      * destruct (columns df) eqn:Hc, (linhas df) eqn:Hl; intros [=]; subst.
        rewrite Hc, Hl. split; [done|]. by right.
      * intros [[Hc Hl] [[? _]|[_ [= ->]]]]; [done|].
        by destruct (columns dataframe), (linhas dataframe).
    + split; [done|]. by intros [_ [[? _]|[_ ?]]].
  - split; [done|]. by intros [_ [[? _]|[? _]]].
Qed.

(** X10.  An exception of the parser the extension selects comes out of
    [read_planilha] and of [importar_planilha] as it is, and the world is
    as it was: no connection is opened and no table is dropped. *)
Theorem erro_do_parser (caminho : Path) (e : Excecao) :
  (lower (suffix caminho) = ".csv" ∧ pd_read_csv caminho = Erro e) ∨
  (lower (suffix caminho) ∈ [".xls"; ".xlsx"] ∧ pd_read_excel caminho = Erro e) →
  ler caminho = Erro e ∧ ∀ m, importar caminho m = (Erro e, m).
Proof.
  intros H.
  assert (ler caminho = Erro e) as Hler.
  { unfold read_planilha, carregar. destruct H as [[Hs Hp]|[Hs Hp]].
    - rewrite decide_True by done. by rewrite Hp.
    - rewrite decide_False by (by apply csv_nao_excel).
      rewrite decide_True by done. by rewrite Hp. }
  split; [done|]. intros m. unfold importar_planilha. by rewrite Hler.
Qed.


(** X12.  After a successful run the destination table has one column
    per column of the file, one row per row of the file, and every
    stored row has one cell per column of the table. *)
Theorem importar_planilha_forma (caminho : Path) (m : Mundo) (dataframe : DataFrame) :
  ler caminho = Ok dataframe →
  fst (importar caminho m) = Ok () →
  ∃ tab,
    banco (snd (importar caminho m)) !! sqlite_lower tabela_destino = Some tab ∧
    length (tab_colunas tab) = length (columns dataframe) ∧
    length (tab_linhas tab) = length (linhas dataframe) ∧
    Forall (λ linha : list PyVal, length linha = length (tab_colunas tab)) (tab_linhas tab).
Proof.
  intros Hler. rewrite importar_planilha_eq, Hler. cbv zeta.
  destruct (recusa_colunas _) as [e|]; [done|].
  destruct (primeira_recusa _ _) as [e|] eqn:Hrec; [done|].
  intros _. eexists. cbn [snd banco]. rewrite lookup_insert_eq.
  split; [done|]. cbn [tab_colunas tab_linhas].
  split_and!; [apply preparar_length|unfold valores_de; by rewrite length_fmap|].
  apply primeira_recusa_None in Hrec.
  eapply Forall_impl; [exact Hrec|]. by intros linha [? _].
Qed.


End Leitura.

(** ** The entry point *)

Section Entrada.
Variable pd_read_csv : Path → Resultado DataFrame.
Variable pd_read_excel : Path → Resultado DataFrame.
Variable parse_args : option (list string) → Analise.
Variable resolve : Path → string.

Local Abbreviation ler := (read_planilha pd_read_csv pd_read_excel).
Local Abbreviation importar := (importar_planilha pd_read_csv pd_read_excel).
Local Abbreviation main := (main pd_read_csv pd_read_excel parse_args resolve).

(** X14.  When the reader refuses the file (unsupported extension, empty
    table, parser exception), [main] ends with exit status 1, prints the
    one line [Erro ao importar planilha: <message>] on the error stream
    and nothing on the output stream, and leaves the store as it was,
    without opening a connection. *)
Theorem main_erro_de_leitura (argv : option (list string)) (p : Processo)
    (argumentos : Namespace) (e : Excecao) :
  parse_args argv = Analisado argumentos →
  ler (caminho_planilha argumentos) = Erro e →
  main argv p
  = (SystemExit 1,
     {| mundo := mundo p; stdout := stdout p;
        stderr := stderr p ++ ["Erro ao importar planilha: " +:+ excecao_str e] |}).
Proof.
  intros Hargs Hler. unfold main. rewrite Hargs.
  unfold importar_planilha. by rewrite Hler.
Qed.

(** X15.  Once the arguments are parsed, [main] returns normally or
    exits with status 1, and it returns normally exactly when the run
    succeeds.  When it returns, the destination table holds the
    normalised header and every row of the file, one line was printed on
    the output stream and none on the error stream.  When it exits, one
    line was printed on the error stream and none on the output stream,
    and the store is as it was or its destination table is absent or
    empty. *)
Theorem main_status (argv : option (list string)) (p : Processo)
    (argumentos : Namespace) :
  parse_args argv = Analisado argumentos →
  let r := main argv p in
  let destino := banco (mundo (snd r)) !! sqlite_lower tabela_destino in
  (fst r = Retorno ↔ fst (importar (caminho_planilha argumentos) (mundo p)) = Ok ()) ∧
  (fst r = Retorno →
   stdout (snd r) = stdout p ++ [msg_sucesso (resolve (banco_dados argumentos))] ∧
   stderr (snd r) = stderr p ∧
   ∃ dataframe,
     ler (caminho_planilha argumentos) = Ok dataframe ∧
     destino = Some {| tab_colunas := preparar_nomes_colunas (columns dataframe);
                       tab_linhas := valores_de dataframe |}) ∧
  (fst r ≠ Retorno →
   fst r = SystemExit 1 ∧
   stdout (snd r) = stdout p ∧
   (∃ erro, stderr (snd r) = stderr p ++ [msg_erro erro]) ∧
   (mundo (snd r) = mundo p ∨ destino = None ∨
    ∃ colunas, destino = Some {| tab_colunas := colunas; tab_linhas := [] |})).
Proof.
  intros Hargs. cbv zeta. unfold main. rewrite Hargs.
  rewrite importar_planilha_eq.
  destruct (ler (caminho_planilha argumentos)) as [df|e].
  - cbv zeta. destruct (recusa_colunas _) as [e|].
    { cbn [fst snd mundo banco stdout stderr]. split_and!; [done|done|].
      intros _. split_and!; [done|done|by eexists|].
      right. left. by rewrite lookup_delete_eq. }
    destruct (primeira_recusa _ _) as [e|].
    + cbn [fst snd mundo banco stdout stderr]. split_and!; [done|done|].
      intros _. split_and!; [done|done|by eexists|].
      right. right. eexists. by rewrite lookup_insert_eq.
    + cbn [fst snd mundo banco stdout stderr]. split_and!; [done| |done].
      intros _. split_and!; [done|done|]. exists df. by rewrite lookup_insert_eq.
  - cbn [fst snd mundo banco stdout stderr]. split_and!; [done|done|].
    intros _. split_and!; [done|done|by eexists|by left].
Qed.

End Entrada.

End Motor.

(** * Runs on concrete files *)

(** ** An engine for the examples

    An instance of what SQLite and sqlite3 refuse, to run the examples
    below with: a statement with a NUL character, an empty column list,
    more than 2000 columns, and two column names equal up to the case of
    A-Z; an int that does not fit 64 bits and an object that is none of
    None, int, float, str and buffer (such as a pandas Timestamp). *)
Fixpoint tem_nul (s : string) : bool :=
  match s with
  | EmptyString => false
  | String c s' => bool_decide (c = ascii_of_nat 0) || tem_nul s'
  end.

(** The first name that repeats an earlier one, up to case. *)
Fixpoint nome_repetido (vistos colunas : list string) : string :=
  match colunas with
  | [] => EmptyString
  | nome :: resto =>
      if decide (sqlite_lower nome ∈ vistos) then nome
      else nome_repetido (sqlite_lower nome :: vistos) resto
  end.

Definition recusa_colunas_exemplo (colunas : list string) : option Excecao :=
  if existsb tem_nul colunas
  then Some (ErroSqlite "the query contains a null character")
  else if decide (colunas = []) then Some (ErroSqlite "syntax error")
  else if 2000 <? length colunas
  then Some (ErroSqlite "too many columns on produtos_bling")
  else if decide (NoDup (sqlite_lower <$> colunas)) then None
  else Some (ErroSqlite ("duplicate column name: " +:+ nome_repetido [] colunas)).

Definition suportado_exemplo (valor : PyVal) : bool :=
  match valor with
  | PyObj _ | PyNaT | PyNA => false
  | PyInt z => ((- 2 ^ 63 <=? z) && (z <? 2 ^ 63))%Z
  | _ => true
  end.

Definition recusa_valores_exemplo (parametros : list PyVal) : option Excecao :=
  if forallb suportado_exemplo parametros then None
  else Some (ErroSqlite "Error binding parameter: type is not supported").


Lemma inserir_registros_parametros_witness :
  let colunas := ["Nome"; "Estoque"] in
  let m' := snd (inserir_registros recusa_colunas_exemplo recusa_valores_exemplo
      colunas planilha_exemplo mundo_exemplo) in
  linhas planilha_exemplo !! 1 = Some [PyNaN; PyStr "NaN"] ∧
  (∃ parametros p,
     valores_de planilha_exemplo !! 1 = Some parametros ∧ parametros !! 0 = Some p ∧
     p = PyNone) ∧
  (∃ parametros p,
     valores_de planilha_exemplo !! 1 = Some parametros ∧ parametros !! 1 = Some p ∧
     p = PyStr "NaN") ∧
  inserir_registros recusa_colunas_exemplo recusa_valores_exemplo
      colunas planilha_exemplo mundo_exemplo = (Ok (), m') ∧
  visao m' !! "produtos_bling"
  = Some {| tab_colunas := colunas;
            tab_linhas := [[PyStr "Caneta"; PyInt 3]; [PyNone; PyStr "NaN"]] |}.
Proof.
  cbv zeta.
  assert (inserir_registros recusa_colunas_exemplo recusa_valores_exemplo
      ["Nome"; "Estoque"] planilha_exemplo mundo_exemplo
          = (Ok (), snd (inserir_registros recusa_colunas_exemplo recusa_valores_exemplo
              ["Nome"; "Estoque"] planilha_exemplo
                           mundo_exemplo))) as Hrun.
  { vm_compute. reflexivity. }
  destruct (inserir_registros_parametros recusa_colunas_exemplo recusa_valores_exemplo
      ["Nome"; "Estoque"] planilha_exemplo)
    as (Hcel & _ & _ & H).
  split_and!; [reflexivity| | |exact Hrun|].
  - destruct (Hcel 1 0 [PyNaN; PyStr "NaN"] PyNaN eq_refl eq_refl)
      as (parametros & p & Hp & Hv & Hna & _).
    exists parametros, p. split_and!; [exact Hp|exact Hv|]. exact (proj1 (Hna eq_refl)).
  - destruct (Hcel 1 1 [PyNaN; PyStr "NaN"] (PyStr "NaN") eq_refl eq_refl)
      as (parametros & p & Hp & Hv & _ & Hok).
    exists parametros, p. split_and!; [exact Hp|exact Hv|]. exact (Hok eq_refl).
  - destruct (H mundo_exemplo _ [] eq_refl Hrun) as [Hvisto _].
    exact Hvisto.
Defined.

(** ** The claims on concrete files *)




Lemma formato_nao_suportado_witness :
  lower (suffix caminho_txt) = ".txt" ∧
  ∀ m, importar_planilha recusa_colunas_exemplo recusa_valores_exemplo
      (leitor planilha_exemplo) (leitor planilha_exemplo)
         caminho_txt m = (Erro UnsupportedFormat, m).
Proof.
  split; [reflexivity|].
  assert (lower (suffix caminho_txt) ∉ [".csv"; ".xls"; ".xlsx"]) as Hext.
  { apply (bool_decide_unpack _). vm_compute. exact I. }
  destruct (formato_nao_suportado recusa_colunas_exemplo recusa_valores_exemplo
      (leitor planilha_exemplo) (leitor planilha_exemplo)
              caminho_txt Hext) as (_ & _ & H).
  exact H.
Defined.

Lemma planilha_vazia_witness :
  (∀ m, importar_planilha recusa_colunas_exemplo recusa_valores_exemplo
      (leitor planilha_so_cabecalho) (leitor planilha_so_cabecalho)
          caminho_csv m = (Erro EmptyInput, m)) ∧
  read_planilha (leitor planilha_exemplo) (leitor planilha_exemplo) caminho_xlsx
  = Ok planilha_exemplo.
Proof.
  split.
  - destruct (planilha_vazia recusa_colunas_exemplo recusa_valores_exemplo
      (leitor planilha_so_cabecalho) (leitor planilha_so_cabecalho)
                caminho_csv planilha_so_cabecalho eq_refl) as [H _].
    destruct (H eq_refl) as [_ Himp]. exact Himp.
  - destruct (planilha_vazia recusa_colunas_exemplo recusa_valores_exemplo
      (leitor planilha_exemplo) (leitor planilha_exemplo)
                caminho_xlsx planilha_exemplo eq_refl) as [_ H].
    apply H; discriminate.
Defined.

(** C9, as the spec words it, fails: after a run that commits, and after
    a run that fails in the write phase, the connection is still open. *)
Lemma conexao_fica_aberta :
  let r1 := importar_planilha recusa_colunas_exemplo recusa_valores_exemplo
      (leitor planilha_exemplo) (leitor planilha_exemplo)
              caminho_csv (inicio banco_antigo) in
  let r2 := importar_planilha recusa_colunas_exemplo recusa_valores_exemplo
      (leitor planilha_data) (leitor planilha_data)
              caminho_xlsx (inicio banco_antigo) in
  (fst r1 = Ok () ∧ aberta <$> conexao (snd r1) = Some true) ∧
  (falhou (fst r2) = true ∧ aberta <$> conexao (snd r2) = Some true).
Proof. cbv zeta. split_and!; by vm_compute. Qed.

(** ** Further runs on concrete files *)

Lemma erro_do_parser_witness :
  lower (suffix caminho_xlsx) ∈ [".xls"; ".xlsx"] ∧
  ∀ m, importar_planilha recusa_colunas_exemplo recusa_valores_exemplo
      (leitor planilha_exemplo) leitor_falho caminho_xlsx m
       = (Erro (ErroPandas "No columns to parse from file"), m).
Proof.
  assert (lower (suffix caminho_xlsx) ∈ [".xls"; ".xlsx"]) as Hext.
  { apply (bool_decide_unpack _). vm_compute. exact I. }
  split; [exact Hext|].
  destruct (erro_do_parser recusa_colunas_exemplo recusa_valores_exemplo
      (leitor planilha_exemplo) leitor_falho caminho_xlsx
              (ErroPandas "No columns to parse from file")
              (or_intror (conj Hext eq_refl))) as [_ H].
  exact H.
Defined.

Lemma importar_planilha_forma_witness :
  let r := importar_planilha recusa_colunas_exemplo recusa_valores_exemplo
      (leitor planilha_exemplo) (leitor planilha_exemplo)
             caminho_csv (inicio banco_antigo) in
  read_planilha (leitor planilha_exemplo) (leitor planilha_exemplo) caminho_csv
  = Ok planilha_exemplo ∧
  fst r = Ok () ∧
  ∃ tab, banco (snd r) !! sqlite_lower tabela_destino = Some tab ∧
         length (tab_colunas tab) = 2 ∧ length (tab_linhas tab) = 2.
Proof.
  cbv zeta.
  assert (read_planilha (leitor planilha_exemplo) (leitor planilha_exemplo) caminho_csv
          = Ok planilha_exemplo) as Hler by (by vm_compute).
  assert (fst (importar_planilha recusa_colunas_exemplo recusa_valores_exemplo
      (leitor planilha_exemplo) (leitor planilha_exemplo)
                 caminho_csv (inicio banco_antigo)) = Ok ()) as Hok by (by vm_compute).
  split_and!; [exact Hler|exact Hok|].
  destruct (importar_planilha_forma recusa_colunas_exemplo recusa_valores_exemplo
      (leitor planilha_exemplo) (leitor planilha_exemplo)
              caminho_csv (inicio banco_antigo) planilha_exemplo Hler Hok)
    as (tab & Htab & Hc & Hl & _).
  exists tab. split_and!; [exact Htab|exact Hc|exact Hl].
Defined.

Lemma main_erro_de_leitura_witness :
  main recusa_colunas_exemplo recusa_valores_exemplo
      (leitor planilha_exemplo) (leitor planilha_exemplo) analise_txt resolve_exemplo
    None processo_exemplo
  = (SystemExit 1,
     {| mundo := inicio banco_antigo; stdout := [];
        stderr := ["Erro ao importar planilha: " +:+ msg_formato] |}).
Proof.
  apply (main_erro_de_leitura recusa_colunas_exemplo recusa_valores_exemplo
      (leitor planilha_exemplo) (leitor planilha_exemplo)
           analise_txt resolve_exemplo None processo_exemplo
           {| caminho_planilha := caminho_txt; banco_dados := banco_padrao |}
           UnsupportedFormat).
  - reflexivity.
  - by vm_compute.
Defined.

Lemma main_status_witness :
  let r := main recusa_colunas_exemplo recusa_valores_exemplo
      (leitor planilha_exemplo) (leitor planilha_exemplo) analise_csv
             resolve_exemplo None processo_exemplo in
  let r' := main recusa_colunas_exemplo recusa_valores_exemplo
      (leitor planilha_data) (leitor planilha_data) analise_csv
              resolve_exemplo None processo_exemplo in
  (fst r = Retorno ∧
   stdout (snd r) = [msg_sucesso "/srv/produtos_bling.db"] ∧ stderr (snd r) = []) ∧
  (fst r' ≠ Retorno ∧ fst r' = SystemExit 1 ∧ stdout (snd r') = []).
Proof.
  cbv zeta. split.
  - assert (fst (main recusa_colunas_exemplo recusa_valores_exemplo
      (leitor planilha_exemplo) (leitor planilha_exemplo) analise_csv
                   resolve_exemplo None processo_exemplo) = Retorno) as Hret.
    { by vm_compute. }
    pose proof (main_status recusa_colunas_exemplo recusa_valores_exemplo
        (leitor planilha_exemplo) (leitor planilha_exemplo)
                  analise_csv resolve_exemplo None processo_exemplo _ eq_refl) as H.
    cbv zeta in H. destruct H as (_ & H & _).
    destruct (H Hret) as (Hout & Herr & _).
    split_and!; [exact Hret|exact Hout|exact Herr].
  - assert (fst (main recusa_colunas_exemplo recusa_valores_exemplo
      (leitor planilha_data) (leitor planilha_data) analise_csv
                   resolve_exemplo None processo_exemplo) ≠ Retorno) as Hsai.
    { by vm_compute. }
    pose proof (main_status recusa_colunas_exemplo recusa_valores_exemplo
        (leitor planilha_data) (leitor planilha_data)
                  analise_csv resolve_exemplo None processo_exemplo _ eq_refl) as H.
    cbv zeta in H. destruct H as (_ & _ & H).
    destruct (H Hsai) as (Hcod & Hout & _).
    split_and!; [exact Hsai|exact Hcod|exact Hout].
Defined.

Lemma read_planilha_sucesso_witness :
  lower (suffix caminho_xlsx) ∈ [".xls"; ".xlsx"] ∧
  read_planilha leitor_falho (leitor planilha_exemplo) caminho_xlsx = Ok planilha_exemplo.
Proof.
  assert (lower (suffix caminho_xlsx) ∈ [".xls"; ".xlsx"]) as Hext.
  { apply (bool_decide_unpack _). vm_compute. exact I. }
  split; [exact Hext|].
  apply (read_planilha_sucesso leitor_falho (leitor planilha_exemplo) caminho_xlsx
           planilha_exemplo).
  split; [split; discriminate|].
  right. split; [exact Hext|reflexivity].
Defined.


